(** * grpcmetrics: per-RPC metrics adapter (gRPC stats.Handler to OpenTelemetry)

    A shallow embedding of [grpcmetrics.go] and [config.go], and the
    properties of the attribute deriver, the lifecycle dispatcher and the
    instrument provisioner.

    Conventions of the embedding.
    - Go [int64] values are [Z] with the two's-complement wrap-around written
      out ([wrap64]); [atomic.AddInt64] is [wrap64 (x + d)].
    - Go strings are byte strings: [string] of the Standard Library.
    - The [*rpcInfo] pointer carried by the context is a location in a store
      ([gmap loc rpcInfo]); every callback of one attempt reaches the same
      record through that location.
    - A callback is a function on the [World] (the handler behind the
      receiver pointer, the store of records, the measurements received by
      the metrics backend, the errors given to [otel.Handle]) and returns
      an [outcome]: it returns normally with a new world, or it panics.
    - The libraries the package calls are embedded by what they do for the
      calls made here: [codes.Code] and its [String] method, [status.New],
      [status.Error] and [status.FromError], [strings.Split], the
      attribute constructors, and a meter that answers each creation of an
      instrument with the instrument or with an error.
    - Callbacks are taken one at a time.  The only shared writes are single
      [atomic.AddInt64] calls, which commute, so an interleaving of payload
      callbacks leaves the record that some sequential order leaves. *)

From Stdlib Require Import ZArith Lia List Bool.
From Stdlib Require Import Strings.String Strings.Ascii Numbers.DecimalString.
From stdpp Require Import base option gmap.

Import ListNotations.
Local Open Scope string_scope.
Local Open Scope list_scope.
Local Open Scope Z_scope.

(** ** Machine integers *)

Module Int64.

Definition modulus : Z := 2 ^ 64.
Definition half_modulus : Z := 2 ^ 63.
Definition min_int : Z := - half_modulus.
Definition max_int : Z := half_modulus - 1.

(** The value of the low 64 bits of [z] read as a signed integer. *)
Definition wrap64 (z : Z) : Z :=
  (z + half_modulus) mod modulus - half_modulus.

Definition in_range (z : Z) : Prop := min_int <= z <= max_int.

(** [atomic.AddInt64(&x, d)] stores and returns [x + d], wrapping. *)
Definition add (x d : Z) : Z := wrap64 (x + d).

End Int64.

(** ** google.golang.org/grpc/codes *)

Module codes.

(** [type Code uint32]. *)
Definition Code : Type := Z.

Definition OK : Code := 0.
Definition Canceled : Code := 1.
Definition Unknown : Code := 2.
Definition InvalidArgument : Code := 3.
Definition DeadlineExceeded : Code := 4.
Definition NotFound : Code := 5.
Definition AlreadyExists : Code := 6.
Definition PermissionDenied : Code := 7.
Definition ResourceExhausted : Code := 8.
Definition FailedPrecondition : Code := 9.
Definition Aborted : Code := 10.
Definition OutOfRange : Code := 11.
Definition Unimplemented : Code := 12.
Definition Internal : Code := 13.
Definition Unavailable : Code := 14.
Definition DataLoss : Code := 15.
Definition Unauthenticated : Code := 16.

(** [strconv.FormatInt(int64(c), 10)]. *)
Definition FormatInt (z : Z) : string :=
  NilEmpty.string_of_int (Z.to_int z).

(** [func (c Code) String() string]. *)
Definition String (c : Code) : string :=
  match c with
  | 0 => "OK"
  | 1 => "Canceled"
  | 2 => "Unknown"
  | 3 => "InvalidArgument"
  | 4 => "DeadlineExceeded"
  | 5 => "NotFound"
  | 6 => "AlreadyExists"
  | 7 => "PermissionDenied"
  | 8 => "ResourceExhausted"
  | 9 => "FailedPrecondition"
  | 10 => "Aborted"
  | 11 => "OutOfRange"
  | 12 => "Unimplemented"
  | 13 => "Internal"
  | 14 => "Unavailable"
  | 15 => "DataLoss"
  | 16 => "Unauthenticated"
  | _ => "Code(" ++ FormatInt c ++ ")"
  end.

End codes.

(** ** google.golang.org/grpc/status and Go errors *)

Module status.

(** A [*status.Status]: the code and the message it carries. *)
Record Status : Type := New { Code : codes.Code; Message : string }.

(** A non-nil Go [error] as [status.FromError] sees it: either it carries
    a gRPC status (it has a [GRPCStatus()] method, as the values made by
    [status.Error] have), or it is any other error, of which only the
    text returned by [Error()] is used. *)
Inductive error : Type :=
  | StatusError (s : Status)
  | OpaqueError (text : string).

(** [status.Error(c, msg)], that is [New(c, msg).Err()]: nil ([None]) for
    the code OK, and otherwise an error that carries the status. *)
Definition Error (c : codes.Code) (msg : string) : option error :=
  if c =? codes.OK then None else Some (StatusError (New c msg)).

(** [err.Error()]. *)
Definition Error_text (e : error) : string :=
  match e with
  | StatusError s =>
      "rpc error: code = " ++ codes.String (Code s) ++ " desc = " ++ Message s
  | OpaqueError text => text
  end.

(** [status.FromError(err)] on a non-nil error: the carried status and
    [true], or a status made of [codes.Unknown] and the text, and [false]. *)
Definition FromError (e : error) : Status * bool :=
  match e with
  | StatusError s => (s, true)
  | OpaqueError text => (New codes.Unknown text, false)
  end.

End status.

(** ** strings.Split *)

Module strings.

Definition slash : ascii := "/"%char.

(** [strings.Count(s, "/")]. *)
Fixpoint Count (s : string) : nat :=
  match s with
  | EmptyString => 0%nat
  | String c r => if Ascii.eqb c slash then S (Count r) else Count r
  end.

(** [strings.Index(s, "/")]: the index of the first [/], if there is one. *)
Fixpoint Index (s : string) : option nat :=
  match s with
  | EmptyString => None
  | String c r =>
      if Ascii.eqb c slash then Some 0%nat
      else match Index r with
           | Some i => Some (S i)
           | None => None
           end
  end.

(** [s[:m]] and [s[m:]]. *)
Definition slice_to (m : nat) (s : string) : string := substring 0 m s.
Definition slice_from (m : nat) (s : string) : string :=
  substring m (String.length s - m) s.

(** The loop of [genSplit]: at most [n] cuts, then the rest.
<<
    for i < n {
        m := Index(s, sep)
        if m < 0 { break }
        a[i] = s[:m]
        s = s[m+len(sep):]
        i++
    }
    a[i] = s
>> *)
Fixpoint genSplit_loop (n : nat) (s : string) : list string :=
  match n with
  | O => [s]
  | S n' =>
      match Index s with
      | None => [s]
      | Some m => slice_to m s :: genSplit_loop n' (slice_from (S m) s)
      end
  end.

(** [strings.Split(s, "/")]: [genSplit(s, "/", 0, -1)], where a negative
    count becomes [Count(s, "/") + 1] pieces, so [Count(s, "/")] cuts. *)
Definition Split (s : string) : list string :=
  genSplit_loop (Count s) s.

(** [strings.TrimPrefix(s, "/")]. *)
Definition TrimPrefix (s : string) : string :=
  match s with
  | String c r => if Ascii.eqb c slash then r else s
  | EmptyString => s
  end.

End strings.

(** ** go.opentelemetry.io/otel/attribute *)

Module attribute.

Inductive Value : Type :=
  | IntValue (v : Z)
  | StringValue (v : string).

Record KeyValue : Type := mkKeyValue { Key : string; Val : Value }.

(** [attribute.Key(k).Int(v)] and [attribute.Key(k).String(v)]. *)
Definition Int (k : string) (v : Z) : KeyValue := mkKeyValue k (IntValue v).
Definition String (k : string) (v : string) : KeyValue :=
  mkKeyValue k (StringValue v).

(** The value of the first attribute with key [k]. *)
Fixpoint lookup (k : string) (attrs : list KeyValue) : option Value :=
  match attrs with
  | [] => None
  | a :: rest => if String.eqb (Key a) k then Some (Val a) else lookup k rest
  end.

End attribute.

(** Keys of [semconv] v1.17.0. *)
Module semconv.

Definition RPCSystemKey : string := "rpc.system".
Definition RPCServiceKey : string := "rpc.service".
Definition RPCMethodKey : string := "rpc.method".
Definition RPCGRPCStatusCodeKey : string := "rpc.grpc.status_code".
Definition RPCSystemGRPC : attribute.KeyValue :=
  attribute.String RPCSystemKey "grpc".

End semconv.

(** ** Attribute deriver *)

(** [var grpcStatusOK = status.New(codes.OK, "OK")]. *)
Definition grpcStatusOK : status.Status := status.New codes.OK "OK".

(** [func getRPCStatus(err error) *status.Status]; a nil error is [None]. *)
Definition getRPCStatus (err : option status.error) : status.Status :=
  match err with
  | None => grpcStatusOK
  | Some e =>
      let '(s, ok) := status.FromError e in
      if ok then s
      else status.New codes.Internal (status.Error_text e)
  end.

(** The key of the status-name attribute. *)
Definition RPCGRPCStatusKey : string := "rpc.grpc.status".

(** [func getAttributes(fullMethodName string, err error) []attribute.KeyValue]. *)
Definition getAttributes (fullMethodName : string) (err : option status.error)
  : list attribute.KeyValue :=
  let rpcStatus := getRPCStatus err in
  let attr :=
    [ semconv.RPCSystemGRPC;
      attribute.Int semconv.RPCGRPCStatusCodeKey (status.Code rpcStatus);
      attribute.String RPCGRPCStatusKey (codes.String (status.Code rpcStatus)) ] in
  let parts := strings.Split fullMethodName in
  if (List.length parts =? 3)%nat then
    attr ++ [ attribute.String semconv.RPCServiceKey (nth 1 parts "");
              attribute.String semconv.RPCMethodKey (nth 2 parts "") ]
  else attr.

(** ** Correlation record and context propagation *)

(** The address of an [rpcInfo] record. *)
Definition loc : Type := nat.

(** [type rpcInfo struct]. *)
Record rpcInfo : Type := mkRpcInfo {
  fullMethodName : string;
  sentMsgs : Z;
  sentBytes : Z;
  recvMsgs : Z;
  recvBytes : Z
}.

(** The four [int64] fields reached through [&ri.field]. *)
Inductive counter : Type := SentMsgs | SentBytes | RecvMsgs | RecvBytes.

Definition get (f : counter) (ri : rpcInfo) : Z :=
  match f with
  | SentMsgs => sentMsgs ri
  | SentBytes => sentBytes ri
  | RecvMsgs => recvMsgs ri
  | RecvBytes => recvBytes ri
  end.

Definition set (f : counter) (v : Z) (ri : rpcInfo) : rpcInfo :=
  match f with
  | SentMsgs => mkRpcInfo (fullMethodName ri) v (sentBytes ri) (recvMsgs ri) (recvBytes ri)
  | SentBytes => mkRpcInfo (fullMethodName ri) (sentMsgs ri) v (recvMsgs ri) (recvBytes ri)
  | RecvMsgs => mkRpcInfo (fullMethodName ri) (sentMsgs ri) (sentBytes ri) v (recvBytes ri)
  | RecvBytes => mkRpcInfo (fullMethodName ri) (sentMsgs ri) (sentBytes ri) (recvMsgs ri) v
  end.

(** Context keys: [rpcInfoKey{}], which only this package can name, and
    the keys of other packages. *)
Inductive ctxKey : Type :=
  | rpcInfoKey
  | otherKey (name : string).

(** Context values: a [*rpcInfo], or a value of another type. *)
Inductive ctxVal : Type :=
  | rpcInfoPtr (ri : loc)
  | otherVal (v : string).

(** [context.Context]: [context.Background()] and [context.WithValue]. *)
Inductive Context : Type :=
  | Background
  | WithValue (parent : Context) (key : ctxKey) (val : ctxVal).

Definition ctxKey_eqb (a b : ctxKey) : bool :=
  match a, b with
  | rpcInfoKey, rpcInfoKey => true
  | otherKey x, otherKey y => String.eqb x y
  | _, _ => false
  end.

(** [ctx.Value(key)]: the value of the nearest [WithValue] for the key. *)
Fixpoint Value (ctx : Context) (key : ctxKey) : option ctxVal :=
  match ctx with
  | Background => None
  | WithValue parent k v => if ctxKey_eqb k key then Some v else Value parent key
  end.

(** [func setRPCInfo(ctx context.Context, ri *rpcInfo) context.Context]. *)
Definition setRPCInfo (ctx : Context) (ri : loc) : Context :=
  WithValue ctx rpcInfoKey (rpcInfoPtr ri).

(** [func getRPCInfo(ctx context.Context) *rpcInfo]; nil is [None]. *)
Definition getRPCInfo (ctx : Context) : option loc :=
  match Value ctx rpcInfoKey with
  | Some (rpcInfoPtr ri) => Some ri
  | _ => None
  end.

(** ** Instruments and measurements *)

Inductive InstrumentKind : Type :=
  | Int64Counter
  | Float64Histogram
  | Int64Histogram.

(** An instrument of the metrics backend, known by how it was asked for. *)
Record Instrument : Type := mkInstrument {
  kind : InstrumentKind;
  name : string;
  unit_ : string
}.

(** A measured value: an [int64], or the [float64] made from an [int64]. *)
Inductive Number : Type :=
  | Int64 (v : Z)
  | Float64OfInt64 (v : Z).

(** One call of [Add] or [Record] on an instrument. *)
Record Measurement : Type := mkMeasurement {
  instr : Instrument;
  value : Number;
  attrs : list attribute.KeyValue
}.

(** [type Handler struct]; a nil instrument is [None]. *)
Record Handler : Type := mkHandler {
  isClient : bool;
  rpcDuration : option Instrument;
  rpcRequestSize : option Instrument;
  rpcResponseSize : option Instrument;
  rpcRequestsPerRPC : option Instrument;
  rpcResponsesPerRPC : option Instrument
}.

(** ** google.golang.org/grpc/stats *)

(** The [stats.RPCStats] values, with the fields the handler reads.
    Times are nanoseconds. *)
Inductive RPCStats : Type :=
  | InHeader
  | OutHeader
  | InTrailer
  | OutTrailer
  | Begin
  | InPayload (Length : Z)
  | OutPayload (Length : Z)
  | End (BeginTime : Z) (Err : option status.error)
  | OtherStats (typeName data : string).

(** [time.Since(t)] with the clock at [now]: a [time.Duration], which
    saturates at the ends of [int64]. *)
Definition Since (now t : Z) : Z :=
  let d := now - t in
  if d <? Int64.min_int then Int64.min_int
  else if Int64.max_int <? d then Int64.max_int
  else d.

(** [d.Milliseconds()]. *)
Definition Milliseconds (d : Z) : Z := Z.quot d 1000000.

(** ** The world of a handler, and the monad of its callbacks *)

Record World : Type := mkWorld {
  handler : Handler;
  records : gmap loc rpcInfo;
  recorded : list Measurement;
  handled : list string
}.

Inductive outcome (A : Type) : Type :=
  | Return (a : A)
  | Panic.
Arguments Return {A} a.
Arguments Panic {A}.

Definition M (A : Type) : Type := World -> outcome (A * World).

Definition ret {A} (a : A) : M A := fun w => Return (a, w).

Definition bind {A B} (m : M A) (k : A -> M B) : M B :=
  fun w =>
    match m w with
    | Return (a, w') => k a w'
    | Panic => Panic
    end.

Notation "x <- m ;; k" := (bind m (fun x => k))
  (at level 90, m at level 89, right associativity).
Notation "m ;;; k" := (bind m (fun _ => k))
  (at level 90, right associativity).

(** The world a callback leaves, when it returns. *)
Definition exec {A} (m : M A) (w : World) : outcome World :=
  match m w with
  | Return (_, w') => Return w'
  | Panic => Panic
  end.

(** [h]: the handler behind the receiver. *)
Definition self : M Handler := fun w => Return (handler w, w).

(** [ri.fullMethodName]. *)
Definition loadName (ri : loc) : M string :=
  fun w =>
    match records w !! ri with
    | Some r => Return (fullMethodName r, w)
    | None => Panic
    end.

(** [atomic.AddInt64(&ri.f, d)]. *)
Definition AddInt64 (ri : loc) (f : counter) (d : Z) : M unit :=
  fun w =>
    match records w !! ri with
    | Some r =>
        Return (tt, mkWorld (handler w)
                      (<[ri := set f (Int64.add (get f r) d) r]> (records w))
                      (recorded w) (handled w))
    | None => Panic
    end.

(** [atomic.LoadInt64(&ri.f)]. *)
Definition LoadInt64 (ri : loc) (f : counter) : M Z :=
  fun w =>
    match records w !! ri with
    | Some r => Return (get f r, w)
    | None => Panic
    end.

(** [i.Add(ctx, v, attrs...)] and [i.Record(ctx, v, attrs...)]: the
    backend receives the measurement; on a nil instrument the call panics. *)
Definition submit (i : option Instrument) (v : Number)
    (attrs : list attribute.KeyValue) : M unit :=
  fun w =>
    match i with
    | Some ins =>
        Return (tt, mkWorld (handler w) (records w)
                      (recorded w ++ [mkMeasurement ins v attrs]) (handled w))
    | None => Panic
    end.

(** [otel.Handle(err)]. *)
Definition Handle (msg : string) : M unit :=
  fun w =>
    Return (tt, mkWorld (handler w) (records w) (recorded w) (handled w ++ [msg])).

(** [if cond { body }]. *)
Definition when (cond : bool) (body : M unit) : M unit :=
  if cond then body else ret tt.

(** [i != nil]. *)
Definition notNil (i : option Instrument) : bool :=
  match i with Some _ => true | None => false end.

(** ** Lifecycle dispatcher *)

(** [func (h *Handler) TagConn]. *)
Definition TagConn (ctx : Context) : M Context := ret ctx.

(** [func (h *Handler) HandleConn]. *)
Definition HandleConn (ctx : Context) : M unit := ret tt.

(** [&rpcInfo{fullMethodName: m}]: a new record, at an unused address. *)
Definition newRPCInfo (m : string) : M loc :=
  fun w =>
    let l := fresh (dom (records w)) in
    Return (l, mkWorld (handler w)
                 (<[l := mkRpcInfo m 0 0 0 0]> (records w))
                 (recorded w) (handled w)).

(** [func (h *Handler) TagRPC(ctx, info)]. *)
Definition TagRPC (ctx : Context) (FullMethodName : string) : M Context :=
  ri <- newRPCInfo FullMethodName ;;
  ret (setRPCInfo ctx ri).

(** The text of the error given to [otel.Handle] by the default case. *)
Definition unhandledMessage (typeName data : string) : string :=
  "received unhandled stats with type (" ++ typeName ++ ") and data: " ++ data.

(** [func (h *Handler) HandleRPC(ctx, rs)], with the clock at [now]. *)
Definition HandleRPC (ctx : Context) (rs : RPCStats) (now : Z) : M unit :=
  match getRPCInfo ctx with
  | None => ret tt
  | Some ri =>
      match rs with
      | InHeader | OutHeader | InTrailer | OutTrailer => ret tt
      | Begin => ret tt
      | InPayload Length =>
          AddInt64 ri RecvMsgs 1 ;;;
          h <- self ;;
          when (notNil (rpcRequestSize h)) (AddInt64 ri RecvBytes (Int64.wrap64 Length))
      | OutPayload Length =>
          AddInt64 ri SentMsgs 1 ;;;
          h <- self ;;
          when (notNil (rpcResponseSize h)) (AddInt64 ri SentBytes (Int64.wrap64 Length))
      | End BeginTime Err =>
          m <- loadName ri ;;
          let attrs := getAttributes m Err in
          h <- self ;;
          (if isClient h then
             (v <- LoadInt64 ri SentMsgs ;; submit (rpcRequestsPerRPC h) (Int64 v) attrs) ;;;
             (v <- LoadInt64 ri RecvMsgs ;; submit (rpcResponsesPerRPC h) (Int64 v) attrs)
           else
             (v <- LoadInt64 ri RecvMsgs ;; submit (rpcRequestsPerRPC h) (Int64 v) attrs) ;;;
             (v <- LoadInt64 ri SentMsgs ;; submit (rpcResponsesPerRPC h) (Int64 v) attrs)) ;;;
          when (notNil (rpcDuration h))
            (submit (rpcDuration h)
               (Float64OfInt64 (Milliseconds (Since now BeginTime))) attrs) ;;;
          when (notNil (rpcRequestSize h))
            (if isClient h then
               v <- LoadInt64 ri SentBytes ;; submit (rpcRequestSize h) (Int64 v) attrs
             else
               v <- LoadInt64 ri RecvBytes ;; submit (rpcRequestSize h) (Int64 v) attrs) ;;;
          when (notNil (rpcResponseSize h))
            (if isClient h then
               v <- LoadInt64 ri RecvBytes ;; submit (rpcResponseSize h) (Int64 v) attrs
             else
               v <- LoadInt64 ri SentBytes ;; submit (rpcResponseSize h) (Int64 v) attrs)
      | OtherStats typeName data => Handle (unhandledMessage typeName data)
      end
  end.

(** ** Instrument provisioner *)

(** A Go [error] value. *)
Abbreviation error := status.error.

(** One instrument creation asked of a meter, with the error it answered
    (nil is [None]). *)
Definition Call : Type := Instrument * option error.

(** [metric.Meter]: given the creations it has answered so far, a meter
    accepts the next one, and the instrument exists, or rejects it with
    an error. *)
Definition Meter : Type := list Call -> Instrument -> option error.

(** [metric.MeterProvider]: [p.Meter(name)]. *)
Definition MeterProvider : Type := string -> Meter.

(** [type config struct]; a nil provider is [None]. *)
Record config : Type := mkConfig {
  meterProvider : option MeterProvider;
  instrumentationName : string;
  instrumentSizes : bool;
  instrumentLatency : bool
}.

(** [config{}]. *)
Definition zeroConfig : config := mkConfig None "" false false.

(** The values of the [Option] interface: its [apply] method is not
    exported, so they are the results of the four [With...] functions. *)
Inductive Option : Type :=
  | WithInstrumentationName (name : string)
  | WithMeterProvider (p : option MeterProvider)
  | WithInstrumentSizes (instrumentSizes : bool)
  | WithInstrumentLatency (instrumentLatency : bool).

(** [o.apply(&c)]. *)
Definition apply (o : Option) (c : config) : config :=
  match o with
  | WithInstrumentationName name =>
      mkConfig (meterProvider c) name (instrumentSizes c) (instrumentLatency c)
  | WithMeterProvider p =>
      mkConfig p (instrumentationName c) (instrumentSizes c) (instrumentLatency c)
  | WithInstrumentSizes b =>
      mkConfig (meterProvider c) (instrumentationName c) b (instrumentLatency c)
  | WithInstrumentLatency b =>
      mkConfig (meterProvider c) (instrumentationName c) (instrumentSizes c) b
  end.

(** [for _, o := range options { o.apply(&c) }]. *)
Definition applyAll (options : list Option) (c : config) : config :=
  fold_left (fun c o => apply o c) options c.

Definition DefaultInstrumentationName : string :=
  "github.com/mahboubii/grpcmetrics".

(** Construction runs against the creations the meter has answered; it
    gives a value or returns an error. *)
Definition P (A : Type) : Type := list Call -> list Call * (A + error).

Definition retP {A} (a : A) : P A := fun log => (log, inl a).

Definition bindP {A B} (m : P A) (k : A -> P B) : P B :=
  fun log =>
    match m log with
    | (log', inl a) => k a log'
    | (log', inr e) => (log', inr e)
    end.

Notation "x <~ m ;; k" := (bindP m (fun x => k))
  (at level 90, m at level 89, right associativity).

(** [meter.Int64Counter(name, instrument.WithUnit(unit))] and the two
    histogram methods: the meter is asked, and its answer is kept. *)
Definition create (meter : Meter) (k : InstrumentKind) (nm unit : string)
  : P Instrument :=
  fun log =>
    let i := mkInstrument k nm unit in
    match meter log i with
    | None => (log ++ [(i, None)], inl i)
    | Some e => (log ++ [(i, Some e)], inr e)
    end.

(** Assignments to the fields of [h]. *)
Definition setRequestsPerRPC (i : Instrument) (h : Handler) : Handler :=
  mkHandler (isClient h) (rpcDuration h) (rpcRequestSize h) (rpcResponseSize h)
    (Some i) (rpcResponsesPerRPC h).
Definition setResponsesPerRPC (i : Instrument) (h : Handler) : Handler :=
  mkHandler (isClient h) (rpcDuration h) (rpcRequestSize h) (rpcResponseSize h)
    (rpcRequestsPerRPC h) (Some i).
Definition setDuration (i : Instrument) (h : Handler) : Handler :=
  mkHandler (isClient h) (Some i) (rpcRequestSize h) (rpcResponseSize h)
    (rpcRequestsPerRPC h) (rpcResponsesPerRPC h).
Definition setRequestSize (i : Instrument) (h : Handler) : Handler :=
  mkHandler (isClient h) (rpcDuration h) (Some i) (rpcResponseSize h)
    (rpcRequestsPerRPC h) (rpcResponsesPerRPC h).
Definition setResponseSize (i : Instrument) (h : Handler) : Handler :=
  mkHandler (isClient h) (rpcDuration h) (rpcRequestSize h) (Some i)
    (rpcRequestsPerRPC h) (rpcResponsesPerRPC h).

Definition prefixOf (isClient : bool) : string :=
  if isClient then "rpc.client" else "rpc.server".

Section Provisioner.

(** [global.MeterProvider()]. *)
Variable globalMeterProvider : MeterProvider.

(** The meter [newHandler] asks, after the defaults are filled in. *)
Definition meterOf (c : config) : Meter :=
  let mp := match meterProvider c with
            | None => globalMeterProvider
            | Some p => p
            end in
  let nm := if String.eqb (instrumentationName c) "" then DefaultInstrumentationName
            else instrumentationName c in
  mp nm.

(** [func newHandler(isClient bool, options []Option)], which returns a
    handler or an error. *)
Definition newHandler (isClient : bool) (options : list Option) : P Handler :=
  let c := applyAll options zeroConfig in
  let meter := meterOf c in
  let h := mkHandler isClient None None None None None in
  let prefix := prefixOf isClient in
  i <~ create meter Int64Counter (prefix ++ ".requests_per_rpc") "1" ;;
  let h := setRequestsPerRPC i h in
  i <~ create meter Int64Counter (prefix ++ ".responses_per_rpc") "1" ;;
  let h := setResponsesPerRPC i h in
  h <~ (if instrumentLatency c then
          i <~ create meter Float64Histogram (prefix ++ ".duration") "ms" ;;
          retP (setDuration i h)
        else retP h) ;;
  h <~ (if instrumentSizes c then
          i <~ create meter Int64Histogram (prefix ++ ".request.size") "By" ;;
          let h := setRequestSize i h in
          i <~ create meter Int64Histogram (prefix ++ ".response.size") "By" ;;
          retP (setResponseSize i h)
        else retP h) ;;
  retP h.

(** [func NewServerHandler(options ...Option) (stats.Handler, error)]. *)
Definition NewServerHandler (options : list Option) : P Handler :=
  newHandler false options.

(** [func NewClientHandler(options ...Option) (stats.Handler, error)]. *)
Definition NewClientHandler (options : list Option) : P Handler :=
  newHandler true options.

End Provisioner.

(** The instruments [newHandler] asks for, in the order it asks. *)
Definition requestsPerRPC (isClient : bool) : Instrument :=
  mkInstrument Int64Counter (prefixOf isClient ++ ".requests_per_rpc") "1".
Definition responsesPerRPC (isClient : bool) : Instrument :=
  mkInstrument Int64Counter (prefixOf isClient ++ ".responses_per_rpc") "1".
Definition duration (isClient : bool) : Instrument :=
  mkInstrument Float64Histogram (prefixOf isClient ++ ".duration") "ms".
Definition requestSize (isClient : bool) : Instrument :=
  mkInstrument Int64Histogram (prefixOf isClient ++ ".request.size") "By".
Definition responseSize (isClient : bool) : Instrument :=
  mkInstrument Int64Histogram (prefixOf isClient ++ ".response.size") "By".

Definition planned (isClient : bool) (c : config) : list Instrument :=
  [requestsPerRPC isClient; responsesPerRPC isClient]
  ++ (if instrumentLatency c then [duration isClient] else [])
  ++ (if instrumentSizes c then [requestSize isClient; responseSize isClient] else []).

(** The handler a construction with no rejection returns. *)
Definition provisioned (isClient : bool) (c : config) : Handler :=
  mkHandler isClient
    (if instrumentLatency c then Some (duration isClient) else None)
    (if instrumentSizes c then Some (requestSize isClient) else None)
    (if instrumentSizes c then Some (responseSize isClient) else None)
    (Some (requestsPerRPC isClient))
    (Some (responsesPerRPC isClient)).

(** ** Vocabulary of the statements *)

(** The method-name shape in the words of the specification: after a
    leading [/] is stripped, the name splits at [/] into exactly two
    segments, and neither is empty. *)
Definition specShape (m : string) : bool :=
  match strings.Split (strings.TrimPrefix m) with
  | [svc; mth] => negb (String.eqb svc "") && negb (String.eqb mth "")
  | _ => false
  end.

(** The attribute set has a service-name and a method-name attribute. *)
Definition hasServiceAndMethod (attrs : list attribute.KeyValue) : bool :=
  match attribute.lookup semconv.RPCServiceKey attrs,
        attribute.lookup semconv.RPCMethodKey attrs with
  | Some _, Some _ => true
  | _, _ => false
  end.

(** The three attributes every derivation gives. *)
Definition statusAttributes (s : status.Status) : list attribute.KeyValue :=
  [ semconv.RPCSystemGRPC;
    attribute.Int semconv.RPCGRPCStatusCodeKey (status.Code s);
    attribute.String RPCGRPCStatusKey (codes.String (status.Code s)) ].

(** The segments of a string between its [/] bytes, by recursion on it. *)
Fixpoint pieces (s : string) : list string :=
  match s with
  | EmptyString => [EmptyString]
  | String c r =>
      if Ascii.eqb c strings.slash then EmptyString :: pieces r
      else match pieces r with
           | p :: ps => String c p :: ps
           | [] => [String c EmptyString]
           end
  end.

(** What one [Add] or [Record] gives the backend, if the instrument is there. *)
Definition measure (i : option Instrument) (v : Number)
    (attrs : list attribute.KeyValue) : list Measurement :=
  match i with
  | Some ins => [mkMeasurement ins v attrs]
  | None => []
  end.

(** The histogram measurements of an [End], in the order they are made. *)
Definition histogramMeasurements (h : Handler) (r : rpcInfo) (elapsed : Z)
    (attrs : list attribute.KeyValue) : list Measurement :=
  measure (rpcDuration h) (Float64OfInt64 (Milliseconds elapsed)) attrs
  ++ measure (rpcRequestSize h)
       (Int64 (if isClient h then sentBytes r else recvBytes r)) attrs
  ++ measure (rpcResponseSize h)
       (Int64 (if isClient h then recvBytes r else sentBytes r)) attrs.

(** The callbacks of one attempt, in the order they arrive, each with the
    clock at its arrival. *)
Fixpoint handleAll (ctx : Context) (evs : list (RPCStats * Z)) : M unit :=
  match evs with
  | [] => ret tt
  | (rs, now) :: rest => HandleRPC ctx rs now ;;; handleAll ctx rest
  end.

(** The payload events of a trace: how many, and how many bytes. *)
Fixpoint inPayloads (evs : list (RPCStats * Z)) : Z :=
  match evs with
  | [] => 0
  | (InPayload _, _) :: rest => 1 + inPayloads rest
  | _ :: rest => inPayloads rest
  end.

Fixpoint outPayloads (evs : list (RPCStats * Z)) : Z :=
  match evs with
  | [] => 0
  | (OutPayload _, _) :: rest => 1 + outPayloads rest
  | _ :: rest => outPayloads rest
  end.

Fixpoint inBytes (evs : list (RPCStats * Z)) : Z :=
  match evs with
  | [] => 0
  | (InPayload n, _) :: rest => Int64.wrap64 n + inBytes rest
  | _ :: rest => inBytes rest
  end.

Fixpoint outBytes (evs : list (RPCStats * Z)) : Z :=
  match evs with
  | [] => 0
  | (OutPayload n, _) :: rest => Int64.wrap64 n + outBytes rest
  | _ :: rest => outBytes rest
  end.

(** The five event kinds whose case of the switch is empty. *)
Definition ignoredKind (rs : RPCStats) : bool :=
  match rs with
  | InHeader | OutHeader | InTrailer | OutTrailer | Begin => true
  | _ => false
  end.

(** The answers of a meter to a list of creations, asked in order until
    one is rejected. *)
Fixpoint askAll (meter : Meter) (reqs : list Instrument) (log : list Call)
  : list Call * option error :=
  match reqs with
  | [] => (log, None)
  | r :: rest =>
      match meter log r with
      | None => askAll meter rest (log ++ [(r, None)])
      | Some e => (log ++ [(r, Some e)], Some e)
      end
  end.

(** A meter that accepts everything, and one that rejects one name. *)
Definition acceptAll : MeterProvider := fun _ _ _ => None.
Definition rejectName (nm : string) (e : error) : MeterProvider :=
  fun _ _ i => if String.eqb (name i) nm then Some e else None.

(** The record an inbound payload of [n] bytes leaves. *)
Definition afterInPayload (h : Handler) (n : Z) (r : rpcInfo) : rpcInfo :=
  mkRpcInfo (fullMethodName r) (sentMsgs r) (sentBytes r)
    (Int64.add (recvMsgs r) 1)
    (if notNil (rpcRequestSize h) then Int64.add (recvBytes r) (Int64.wrap64 n)
     else recvBytes r).

(** The record an outbound payload of [n] bytes leaves. *)
Definition afterOutPayload (h : Handler) (n : Z) (r : rpcInfo) : rpcInfo :=
  mkRpcInfo (fullMethodName r)
    (Int64.add (sentMsgs r) 1)
    (if notNil (rpcResponseSize h) then Int64.add (sentBytes r) (Int64.wrap64 n)
     else sentBytes r)
    (recvMsgs r) (recvBytes r).

(** The record a run of events leaves, from the record [r]. *)
Fixpoint recordAfter (h : Handler) (evs : list (RPCStats * Z)) (r : rpcInfo)
  : rpcInfo :=
  match evs with
  | [] => r
  | (InPayload n, _) :: rest => recordAfter h rest (afterInPayload h n r)
  | (OutPayload n, _) :: rest => recordAfter h rest (afterOutPayload h n r)
  | _ :: rest => recordAfter h rest r
  end.

(** The errors a run of events gives to [otel.Handle]. *)
Fixpoint diagnostics (evs : list (RPCStats * Z)) : list string :=
  match evs with
  | [] => []
  | (OtherStats ty data, _) :: rest => unhandledMessage ty data :: diagnostics rest
  | _ :: rest => diagnostics rest
  end.

(** A run of events with no terminal event in it. *)
Fixpoint noEnd (evs : list (RPCStats * Z)) : bool :=
  match evs with
  | [] => true
  | (End _ _, _) :: _ => false
  | _ :: rest => noEnd rest
  end.

(** One attempt as the transport drives it: [TagRPC], the events before
    the terminal one, and the terminal event. *)
Definition attempt (ctx : Context) (m : string) (evs : list (RPCStats * Z))
    (bt : Z) (err : option error) (now : Z) : M unit :=
  ctx' <- TagRPC ctx m ;;
  handleAll ctx' evs ;;;
  HandleRPC ctx' (End bt err) now.

(** Worlds to run the callbacks in: a server and a client with every
    instrument, holding one record at address 0, and a handler made as a
    zero [Handler] value. *)
Definition allOn : config := mkConfig None "" true true.

Definition streamRecord : rpcInfo :=
  mkRpcInfo "/testserver.TestsService/Stream" 10 18 1 0.

Definition serverWorld : World :=
  mkWorld (provisioned false allOn) (<[0%nat := streamRecord]> ∅) [] [].

Definition clientWorld : World :=
  mkWorld (provisioned true allOn) (<[0%nat := streamRecord]> ∅) [] [].

Definition zeroWorld : World :=
  mkWorld (mkHandler false None None None None None) ∅ [] [].

Definition ctx0 : Context := setRPCInfo Background 0%nat.

(** The error the test server returns from its [Error] method. *)
Definition notFoundError : error :=
  status.StatusError (status.New codes.NotFound "error").

(** Every counter of the record is an [int64]. *)
Definition recordInRange (r : rpcInfo) : Prop :=
  Int64.in_range (sentMsgs r) /\ Int64.in_range (sentBytes r) /\
  Int64.in_range (recvMsgs r) /\ Int64.in_range (recvBytes r).

(** The result of a callback, seen through a function of the world. *)
Definition outcome_map {A B} (f : A -> B) (o : outcome A) : outcome B :=
  match o with
  | Return a => Return (f a)
  | Panic => Panic
  end.

(** The value the options give a flag: the value of the last option that
    sets it, or the value it had. *)
Fixpoint latencyOption (options : list Option) (d : bool) : bool :=
  match options with
  | [] => d
  | WithInstrumentLatency b :: rest => latencyOption rest b
  | _ :: rest => latencyOption rest d
  end.

Fixpoint sizesOption (options : list Option) (d : bool) : bool :=
  match options with
  | [] => d
  | WithInstrumentSizes b :: rest => sizesOption rest b
  | _ :: rest => sizesOption rest d
  end.

(** The answers that say a creation was accepted. *)
Definition accepted (reqs : list Instrument) : list Call :=
  map (fun i => (i, None)) reqs.

(** ** Further vocabulary: contexts, runs, options *)

(** A context derived any number of times with keys of other packages. *)
Fixpoint deriveAll (ctx : Context) (kvs : list (string * ctxVal)) : Context :=
  match kvs with
  | [] => ctx
  | (k, v) :: rest => deriveAll (WithValue ctx (otherKey k) v) rest
  end.

(** The record a context carries, if it carries one, is in the store. *)
Definition validIn (w : World) (ctx : Context) : Prop :=
  match getRPCInfo ctx with
  | Some l => is_Some (records w !! l)
  | None => True
  end.

(** The terminal event. *)
Definition isEnd (rs : RPCStats) : bool :=
  match rs with
  | End _ _ => true
  | _ => false
  end.

(** The events that can only count: not the terminal one, and not one of
    an unrecognized kind. *)
Definition counting (ev : RPCStats * Z) : bool :=
  match fst ev with
  | End _ _ | OtherStats _ _ => false
  | _ => true
  end.

(** What a call of [HandleRPC] gives to [otel.Handle]. *)
Definition diagnosticOf (ctx : Context) (rs : RPCStats) : list string :=
  match getRPCInfo ctx, rs with
  | Some _, OtherStats ty data => [unhandledMessage ty data]
  | _, _ => []
  end.

(** The measurements of one terminal event on the record [r]. *)
Definition endMeasurements (h : Handler) (ireq iresp : Instrument) (r : rpcInfo)
    (elapsed : Z) (err : option error) : list Measurement :=
  let attrs := getAttributes (fullMethodName r) err in
  [ mkMeasurement ireq (Int64 (if isClient h then sentMsgs r else recvMsgs r)) attrs;
    mkMeasurement iresp (Int64 (if isClient h then recvMsgs r else sentMsgs r)) attrs ]
  ++ histogramMeasurements h r elapsed attrs.

(** The histograms a handler holds, in the order the terminal event uses
    them, and all its instruments. *)
Definition histograms (h : Handler) : list Instrument :=
  match rpcDuration h with Some i => [i] | None => [] end
  ++ match rpcRequestSize h with Some i => [i] | None => [] end
  ++ match rpcResponseSize h with Some i => [i] | None => [] end.

Definition instruments (h : Handler) : list Instrument :=
  match rpcRequestsPerRPC h with Some i => [i] | None => [] end
  ++ match rpcResponsesPerRPC h with Some i => [i] | None => [] end
  ++ histograms h.

(** The values the options give the name and the provider: those of the
    last option that sets them, or the ones they had. *)
Fixpoint nameOption (options : list Option) (d : string) : string :=
  match options with
  | [] => d
  | WithInstrumentationName n :: rest => nameOption rest n
  | _ :: rest => nameOption rest d
  end.

Fixpoint providerOption (options : list Option) (d : option MeterProvider)
  : option MeterProvider :=
  match options with
  | [] => d
  | WithMeterProvider p :: rest => providerOption rest p
  | _ :: rest => providerOption rest d
  end.

(** The unit [newHandler] gives an instrument of each kind. *)
Definition unitOf (k : InstrumentKind) : string :=
  match k with
  | Int64Counter => "1"
  | Float64Histogram => "ms"
  | Int64Histogram => "By"
  end.

(** A world whose handler is the zero [Handler] value, with one record. *)
Definition zeroHandlerWorld : World :=
  mkWorld (mkHandler false None None None None None)
    (<[0%nat := streamRecord]> ∅) [] [].

(** ** The exporter of the tests *)

Section Exporter.

(** [metricdata.ResourceMetrics]. *)
Variable ResourceMetrics : Type.

(** [type exporter struct { data atomic.Value }]: nothing stored is [None]. *)
Definition exporter : Type := option ResourceMetrics.

(** [func (e *exporter) Export(ctx, data) error], where [ctxErr] is what
    [ctx.Err()] gives: the data is stored, then the error is returned. *)
Definition Export (ctxErr : option error) (data : ResourceMetrics) (e : exporter)
  : exporter * option error :=
  (Some data, ctxErr).

(** [func (e *exporter) Read() metricdata.ResourceMetrics]: it panics when
    the stored value is not a [ResourceMetrics]. *)
Definition Read (e : exporter) : outcome ResourceMetrics :=
  match e with
  | Some d => Return d
  | None => Panic
  end.

(** [ForceFlush] and [Shutdown]. *)
Definition ForceFlush (ctxErr : option error) (e : exporter) : exporter * option error :=
  (e, ctxErr).
Definition Shutdown (ctxErr : option error) (e : exporter) : exporter * option error :=
  (e, ctxErr).

(** A run of exports, each with its context error. *)
Fixpoint exportAll (calls : list (option error * ResourceMetrics)) (e : exporter)
  : exporter :=
  match calls with
  | [] => e
  | (ctxErr, data) :: rest => exportAll rest (fst (Export ctxErr data e))
  end.

End Exporter.

(** ** The test server *)

(** [stream.Send]: given the values sent so far, the stream sends the
    next one or answers with an error. *)
Definition SendStream : Type := list Z -> Z -> option error.

(** The loop of [Server.Stream], with [n] rounds left from the value [i]:
<<
    for i := 0; i < 10; i++ {
        if err := stream.Send(&NonEmpty{Value: int32(i)}); err != nil {
            return err
        }
    }
    return nil
>> *)
Fixpoint streamLoop (stream : SendStream) (n : nat) (i : Z) (sent : list Z)
  : list Z * option error :=
  match n with
  | O => (sent, None)
  | S n' =>
      match stream sent i with
      | Some e => (sent, Some e)
      | None => streamLoop stream n' (i + 1) (sent ++ [i])
      end
  end.

(** [func (s Server) Stream(_ *Empty, stream) error], from a stream that
    has sent nothing: the values sent, and the error returned. *)
Definition Stream (stream : SendStream) : list Z * option error :=
  streamLoop stream 10 0 [].

(** [func (s *Server) Ok] and [func (s *Server) Error]: the value and the
    error they return. *)
Definition ServerOk : Z * option error := (1, None).
Definition ServerError : option error := status.Error codes.NotFound "error".

(** * Properties *)

(** ** Machine integers *)

Lemma wrap64_in_range z : Int64.in_range z -> Int64.wrap64 z = z.
Proof.
  unfold Int64.in_range, Int64.wrap64, Int64.min_int, Int64.max_int,
    Int64.modulus, Int64.half_modulus.
  intros H. rewrite Z.mod_small; lia.
Qed.

Lemma wrap64_range z : Int64.in_range (Int64.wrap64 z).
Proof.
  unfold Int64.in_range, Int64.wrap64, Int64.min_int, Int64.max_int,
    Int64.modulus, Int64.half_modulus.
  pose proof (Z.mod_pos_bound (z + 2 ^ 63) (2 ^ 64) ltac:(lia)). lia.
Qed.

Lemma wrap64_add_l a b : Int64.wrap64 (Int64.wrap64 a + b) = Int64.wrap64 (a + b).
Proof.
  unfold Int64.wrap64, Int64.modulus, Int64.half_modulus.
  f_equal.
  replace ((a + 2 ^ 63) mod 2 ^ 64 - 2 ^ 63 + b + 2 ^ 63)
    with ((a + 2 ^ 63) mod 2 ^ 64 + b) by lia.
  rewrite Z.add_mod_idemp_l by lia. f_equal. lia.
Qed.

Lemma wrap64_add_r a b : Int64.wrap64 (a + Int64.wrap64 b) = Int64.wrap64 (a + b).
Proof. rewrite Z.add_comm, wrap64_add_l. f_equal. lia. Qed.

Lemma wrap64_0 : Int64.wrap64 0 = 0.
Proof. reflexivity. Qed.

(** ** strings.Split *)

Lemma substring_all s : substring 0 (String.length s) s = s.
Proof. induction s as [|c r IH]; simpl; [reflexivity | now rewrite IH]. Qed.

Lemma Count_app a b :
  strings.Count (a ++ b)%string = (strings.Count a + strings.Count b)%nat.
Proof.
  induction a as [|c r IH]; simpl; [reflexivity|].
  destruct (Ascii.eqb c strings.slash); simpl; now rewrite IH.
Qed.

Lemma Index_None_Count s : strings.Index s = None -> strings.Count s = 0%nat.
Proof.
  induction s as [|c r IH]; simpl; [reflexivity|].
  destruct (Ascii.eqb c strings.slash); [discriminate|].
  destruct (strings.Index r); [discriminate | auto].
Qed.

Lemma Count_0_pieces s : strings.Count s = 0%nat -> pieces s = [s].
Proof.
  induction s as [|c r IH]; simpl; [reflexivity|].
  destruct (Ascii.eqb c strings.slash); [discriminate|].
  intros H. now rewrite (IH H).
Qed.

(** Where [Index] finds the first [/], the two slices are what stands
    before it and after it. *)
Lemma Index_Some_cut s m :
  strings.Index s = Some m ->
  exists pre rest,
    s = (pre ++ String strings.slash rest)%string /\
    strings.Count pre = 0%nat /\
    strings.slice_to m s = pre /\
    strings.slice_from (S m) s = rest.
Proof.
  revert m. induction s as [|c r IH]; simpl; intros m H; [discriminate|].
  destruct (Ascii.eqb c strings.slash) eqn:Hc.
  - injection H as <-. apply Ascii.eqb_eq in Hc. subst c.
    exists EmptyString, r. repeat split.
    unfold strings.slice_from. simpl. rewrite Nat.sub_0_r. apply substring_all.
  - destruct (strings.Index r) as [i|] eqn:Hi; [|discriminate].
    injection H as <-.
    destruct (IH i eq_refl) as (pre & rest & Hs & Hpre & Hto & Hfrom).
    exists (String c pre), rest. subst r. repeat split.
    + simpl. now rewrite Hc.
    + unfold strings.slice_to in *. simpl. now rewrite Hto.
    + unfold strings.slice_from in *. simpl. exact Hfrom.
Qed.

Lemma pieces_cut pre rest :
  strings.Count pre = 0%nat ->
  pieces (pre ++ String strings.slash rest)%string = pre :: pieces rest.
Proof.
  induction pre as [|c r IH]; simpl.
  - intros _. reflexivity.
  - destruct (Ascii.eqb c strings.slash); [discriminate|].
    intros H. now rewrite (IH H).
Qed.

Lemma genSplit_loop_pieces n s :
  (strings.Count s <= n)%nat -> strings.genSplit_loop n s = pieces s.
Proof.
  revert s. induction n as [|n IH]; intros s Hn; simpl.
  - symmetry. apply Count_0_pieces. lia.
  - destruct (strings.Index s) as [m|] eqn:Hm.
    + destruct (Index_Some_cut s m Hm) as (pre & rest & Hs & Hpre & Hto & Hfrom).
      rewrite Hto, Hfrom. subst s. rewrite pieces_cut by exact Hpre.
      f_equal. apply IH.
      rewrite Count_app in Hn. simpl in Hn. lia.
    + symmetry. apply Count_0_pieces. now apply Index_None_Count.
Qed.

(** [strings.Split] gives the segments between the [/] bytes. *)
Lemma Split_pieces s : strings.Split s = pieces s.
Proof. unfold strings.Split. apply genSplit_loop_pieces. lia. Qed.

Lemma pieces_length s : List.length (pieces s) = S (strings.Count s).
Proof.
  induction s as [|c r IH]; simpl; [reflexivity|].
  destruct (Ascii.eqb c strings.slash); simpl; [now rewrite IH|].
  destruct (pieces r); simpl in *; [discriminate | exact IH].
Qed.

Lemma Split_length s : List.length (strings.Split s) = S (strings.Count s).
Proof. rewrite Split_pieces. apply pieces_length. Qed.

Lemma Count_S_cut s n :
  strings.Count s = S n ->
  exists pre rest,
    s = (pre ++ String strings.slash rest)%string /\
    strings.Count pre = 0%nat /\ strings.Count rest = n.
Proof.
  induction s as [|c r IH]; simpl; [discriminate|].
  destruct (Ascii.eqb c strings.slash) eqn:Hc.
  - intros [= H]. apply Ascii.eqb_eq in Hc. subst c.
    exists EmptyString, r. auto.
  - intros H. destruct (IH H) as (pre & rest & Hs & Hpre & Hrest).
    exists (String c pre), rest. subst r. simpl. rewrite Hc. auto.
Qed.

(** A name with exactly two [/] bytes is [P/S/M] with no [/] in [P], [S]
    and [M], and [Split] gives those three. *)
Lemma Split_three m :
  strings.Count m = 2%nat ->
  exists P S M,
    m = (P ++ "/" ++ S ++ "/" ++ M)%string /\
    strings.Count P = 0%nat /\ strings.Count S = 0%nat /\ strings.Count M = 0%nat /\
    strings.Split m = [P; S; M].
Proof.
  intros H.
  destruct (Count_S_cut m 1 H) as (P & rest & Hm & HP & Hrest).
  destruct (Count_S_cut rest 0 Hrest) as (S' & M & Hr & HS & HM).
  exists P, S', M. subst m rest. repeat split; try assumption.
  rewrite Split_pieces, pieces_cut, pieces_cut, Count_0_pieces by assumption.
  reflexivity.
Qed.

(** ** Attribute deriver *)

Example getAttributes_listtags :
  getAttributes "/product.Products/ListTags" None =
  [ attribute.String "rpc.system" "grpc";
    attribute.Int "rpc.grpc.status_code" 0;
    attribute.String "rpc.grpc.status" "OK";
    attribute.String "rpc.service" "product.Products";
    attribute.String "rpc.method" "ListTags" ].
Proof. reflexivity. Qed.

Example getAttributes_invalid_argument :
  getAttributes "/product.Products/ListTags"
    (status.Error codes.InvalidArgument "") =
  [ attribute.String "rpc.system" "grpc";
    attribute.Int "rpc.grpc.status_code" 3;
    attribute.String "rpc.grpc.status" "InvalidArgument";
    attribute.String "rpc.service" "product.Products";
    attribute.String "rpc.method" "ListTags" ].
Proof. reflexivity. Qed.

Example getRPCStatus_test :
  getRPCStatus None = status.New codes.OK "OK" /\
  status.Code (getRPCStatus (Some (status.OpaqueError "non rpc err"))) = codes.Internal /\
  status.Code (getRPCStatus (status.Error codes.NotFound "")) = codes.NotFound.
Proof. repeat split. Qed.

Lemma getAttributes_unfold m err :
  getAttributes m err =
  if (strings.Count m =? 2)%nat then
    statusAttributes (getRPCStatus err)
    ++ [ attribute.String semconv.RPCServiceKey (nth 1 (strings.Split m) "");
         attribute.String semconv.RPCMethodKey (nth 2 (strings.Split m) "") ]
  else statusAttributes (getRPCStatus err).
Proof. unfold getAttributes. rewrite Split_length. reflexivity. Qed.

(** For names [/S/M] with no [/] inside [S] and [M], the service is [S]
    and the method is [M]. *)
Lemma getAttributes_slash_form S M err :
  strings.Count S = 0%nat -> strings.Count M = 0%nat ->
  getAttributes ("/" ++ S ++ "/" ++ M) err =
  statusAttributes (getRPCStatus err)
  ++ [ attribute.String semconv.RPCServiceKey S;
       attribute.String semconv.RPCMethodKey M ].
Proof.
  intros HS HM. rewrite getAttributes_unfold.
  assert (Hc : strings.Count ("/" ++ S ++ "/" ++ M) = 2%nat).
  { change ("/" ++ S ++ "/" ++ M)%string
      with (String strings.slash (S ++ String strings.slash M))%string.
    simpl. rewrite Count_app. simpl. lia. }
  rewrite Hc. simpl Nat.eqb. cbv iota.
  rewrite Split_pieces.
  change ("/" ++ S ++ "/" ++ M)%string
    with ("" ++ String strings.slash (S ++ String strings.slash M))%string.
  rewrite pieces_cut, pieces_cut, Count_0_pieces by (assumption || reflexivity).
  reflexivity.
Qed.

(** C2, as the code has it: the service-name and method-name attributes
    are derived exactly when the method name has exactly two [/] bytes,
    that is when [strings.Split] cuts it into exactly three segments
    [P], [S], [M]; the service is then [S] and the method [M], whatever
    [P] is and whether or not [S] and [M] are empty.  For every other
    name the attribute set is the three status attributes alone.  The
    derivation is a total function: it gives an attribute set for every
    name and every error. *)
Theorem getAttributes_service_method (m : string) (err : option error) :
  hasServiceAndMethod (getAttributes m err) = (strings.Count m =? 2)%nat /\
  ((strings.Count m = 2%nat /\
    exists P S M,
      m = (P ++ "/" ++ S ++ "/" ++ M)%string /\
      strings.Count P = 0%nat /\ strings.Count S = 0%nat /\ strings.Count M = 0%nat /\
      strings.Split m = [P; S; M] /\
      getAttributes m err =
        statusAttributes (getRPCStatus err)
        ++ [ attribute.String semconv.RPCServiceKey S;
             attribute.String semconv.RPCMethodKey M ])
   \/
   (strings.Count m <> 2%nat /\
    List.length (strings.Split m) <> 3%nat /\
    attribute.lookup semconv.RPCServiceKey (getAttributes m err) = None /\
    attribute.lookup semconv.RPCMethodKey (getAttributes m err) = None /\
    getAttributes m err = statusAttributes (getRPCStatus err))).
Proof.
  rewrite getAttributes_unfold.
  destruct (strings.Count m =? 2)%nat eqn:Hc.
  - split; [reflexivity|]. left.
    apply Nat.eqb_eq in Hc. split; [exact Hc|].
    destruct (Split_three m Hc) as (P & S & M & Hm & HP & HS & HM & Hsplit).
    exists P, S, M. rewrite Hsplit. repeat split; assumption.
  - split; [reflexivity|]. right.
    apply Nat.eqb_neq in Hc. rewrite Split_length.
    repeat split; try reflexivity; lia.
Qed.

(** C2, as the specification words it, fails: [//] has no non-empty
    segment and [a/b/c] has no leading [/] and three segments, and both
    derive a service-name and a method-name attribute. *)
Lemma getAttributes_shape_counterexample :
  ~ (hasServiceAndMethod (getAttributes "//" None) = true <-> specShape "//" = true) /\
  ~ (hasServiceAndMethod (getAttributes "a/b/c" None) = true <-> specShape "a/b/c" = true).
Proof.
  split; intros [H _]; specialize (H eq_refl); vm_compute in H; discriminate.
Qed.

(** C3: a nil error derives the status OK, whose code is 0; an error that
    carries a status derives that status, code and message; any other
    error derives the code Internal with the text of the error. *)
Theorem getRPCStatus_cases (err : option error) :
  match err with
  | None =>
      getRPCStatus err = grpcStatusOK /\
      status.Code (getRPCStatus err) = 0 /\
      codes.String (status.Code (getRPCStatus err)) = "OK"
  | Some (status.StatusError s) =>
      getRPCStatus err = s /\
      status.Code (getRPCStatus err) = status.Code s /\
      status.Message (getRPCStatus err) = status.Message s
  | Some (status.OpaqueError text) =>
      status.Code (getRPCStatus err) = codes.Internal /\
      status.Message (getRPCStatus err) = status.Error_text (status.OpaqueError text) /\
      status.Message (getRPCStatus err) = text
  end.
Proof. destruct err as [[s|text]|]; repeat split. Qed.

(** C4, as the code has it: an error carrying the NotFound code derives
    the numeric status-code attribute 5, the number of NotFound, and the
    status-name attribute "NotFound", for every method name and message. *)
Theorem getAttributes_NotFound (m msg : string) :
  let attrs := getAttributes m (status.Error codes.NotFound msg) in
  attribute.lookup semconv.RPCGRPCStatusCodeKey attrs = Some (attribute.IntValue 5) /\
  attribute.lookup RPCGRPCStatusKey attrs = Some (attribute.StringValue "NotFound").
Proof.
  cbv zeta. rewrite getAttributes_unfold.
  destruct (strings.Count m =? 2)%nat; split; reflexivity.
Qed.

(** C4, as the specification words it, fails: the numeric attribute of a
    NotFound error is not 3, which is the number of InvalidArgument. *)
Lemma getAttributes_NotFound_counterexample :
  ~ (let attrs := getAttributes "/testserver.TestsService/Error"
                    (status.Error codes.NotFound "error") in
     attribute.lookup semconv.RPCGRPCStatusCodeKey attrs = Some (attribute.IntValue 3) /\
     attribute.lookup RPCGRPCStatusKey attrs = Some (attribute.StringValue "NotFound")).
Proof. intros [H _]. vm_compute in H. discriminate. Qed.

(** ** Context propagation *)

Lemma getRPCInfo_setRPCInfo ctx ri : getRPCInfo (setRPCInfo ctx ri) = Some ri.
Proof. reflexivity. Qed.

Lemma getRPCInfo_Background : getRPCInfo Background = None.
Proof. reflexivity. Qed.

(** A context derived with a key of another package inherits the record. *)
Lemma getRPCInfo_derived ctx nm v :
  getRPCInfo (WithValue ctx (otherKey nm) v) = getRPCInfo ctx.
Proof. reflexivity. Qed.

(** ** Lifecycle dispatcher: what each case of the switch does *)

Lemma HandleRPC_no_record ctx rs now w :
  getRPCInfo ctx = None -> HandleRPC ctx rs now w = Return (tt, w).
Proof. intros H. unfold HandleRPC. rewrite H. reflexivity. Qed.

Lemma HandleRPC_ignored ctx rs now w :
  ignoredKind rs = true -> HandleRPC ctx rs now w = Return (tt, w).
Proof.
  intros H. unfold HandleRPC.
  destruct (getRPCInfo ctx); [|reflexivity].
  destruct rs; try discriminate; reflexivity.
Qed.

Lemma HandleRPC_InPayload ctx l r n now w :
  getRPCInfo ctx = Some l -> records w !! l = Some r ->
  HandleRPC ctx (InPayload n) now w =
  Return (tt, mkWorld (handler w)
                (<[l := afterInPayload (handler w) n r]> (records w))
                (recorded w) (handled w)).
Proof.
  intros Hctx Hr. unfold HandleRPC. rewrite Hctx.
  unfold bind, AddInt64, self, when, ret. rewrite Hr. simpl.
  unfold afterInPayload.
  destruct (notNil (rpcRequestSize (handler w))); simpl; [|reflexivity].
  rewrite lookup_insert_eq, insert_insert_eq. reflexivity.
Qed.

Lemma HandleRPC_OutPayload ctx l r n now w :
  getRPCInfo ctx = Some l -> records w !! l = Some r ->
  HandleRPC ctx (OutPayload n) now w =
  Return (tt, mkWorld (handler w)
                (<[l := afterOutPayload (handler w) n r]> (records w))
                (recorded w) (handled w)).
Proof.
  intros Hctx Hr. unfold HandleRPC. rewrite Hctx.
  unfold bind, AddInt64, self, when, ret. rewrite Hr. simpl.
  unfold afterOutPayload.
  destruct (notNil (rpcResponseSize (handler w))); simpl; [|reflexivity].
  rewrite lookup_insert_eq, insert_insert_eq. reflexivity.
Qed.

(** The terminal event, on a handler whose two counters are there: the
    two counter measurements, then the histogram measurements; the record
    and the handler stay as they are. *)
Lemma HandleRPC_End ctx l r bt err now w ireq iresp :
  getRPCInfo ctx = Some l -> records w !! l = Some r ->
  rpcRequestsPerRPC (handler w) = Some ireq ->
  rpcResponsesPerRPC (handler w) = Some iresp ->
  let attrs := getAttributes (fullMethodName r) err in
  HandleRPC ctx (End bt err) now w =
  Return (tt, mkWorld (handler w) (records w)
                (recorded w
                 ++ [ mkMeasurement ireq
                        (Int64 (if isClient (handler w) then sentMsgs r else recvMsgs r)) attrs;
                      mkMeasurement iresp
                        (Int64 (if isClient (handler w) then recvMsgs r else sentMsgs r)) attrs ]
                 ++ histogramMeasurements (handler w) r (Since now bt) attrs)
                (handled w)).
Proof.
  intros Hctx Hr Hreq Hresp attrs. unfold HandleRPC. rewrite Hctx.
  unfold histogramMeasurements, measure.
  destruct w as [[cl d rq rs rqc rsc] recs ms hd]. simpl in *. subst rqc rsc.
  unfold bind, loadName, self, LoadInt64, submit, when, ret. simpl.
  rewrite Hr. fold attrs.
  destruct cl, d, rq, rs; simpl; repeat (rewrite Hr; simpl);
    rewrite <- ?app_assoc; simpl; rewrite ?app_nil_r; reflexivity.
Qed.

(** An event of a kind the switch does not know is given to
    [otel.Handle] and changes nothing else. *)
Lemma HandleRPC_OtherStats ctx l ty data now w :
  getRPCInfo ctx = Some l ->
  HandleRPC ctx (OtherStats ty data) now w =
  Return (tt, mkWorld (handler w) (records w) (recorded w)
                (handled w ++ [unhandledMessage ty data])).
Proof. intros Hctx. unfold HandleRPC. rewrite Hctx. reflexivity. Qed.

(** With a nil counter the terminal event panics: [Add] is called on it
    without a check. *)
Lemma HandleRPC_End_nil_counter ctx l r bt err now w :
  getRPCInfo ctx = Some l -> records w !! l = Some r ->
  rpcRequestsPerRPC (handler w) = None ->
  HandleRPC ctx (End bt err) now w = Panic.
Proof.
  intros Hctx Hr Hreq. unfold HandleRPC. rewrite Hctx.
  destruct w as [[cl d rq rs rqc rsc] recs ms hd]. simpl in *. subst rqc.
  unfold bind, loadName, self, LoadInt64, submit, when, ret. simpl.
  rewrite Hr. destruct cl; simpl; rewrite Hr; reflexivity.
Qed.

(** No callback assigns to a field of the handler. *)
Lemma HandleRPC_handler ctx rs now w w' u :
  HandleRPC ctx rs now w = Return (u, w') -> handler w' = handler w.
Proof.
  intros H.
  destruct (getRPCInfo ctx) as [l|] eqn:Hctx.
  2:{ rewrite HandleRPC_no_record in H by assumption. now injection H as _ <-. }
  destruct rs;
    try (rewrite HandleRPC_ignored in H by reflexivity; now injection H as _ <-).
  - destruct (records w !! l) as [r|] eqn:Hr.
    + rewrite (HandleRPC_InPayload ctx l r) in H by assumption. now injection H as _ <-.
    + unfold HandleRPC in H. rewrite Hctx in H.
      unfold bind, AddInt64 in H. rewrite Hr in H. discriminate.
  - destruct (records w !! l) as [r|] eqn:Hr.
    + rewrite (HandleRPC_OutPayload ctx l r) in H by assumption. now injection H as _ <-.
    + unfold HandleRPC in H. rewrite Hctx in H.
      unfold bind, AddInt64 in H. rewrite Hr in H. discriminate.
  - destruct (records w !! l) as [r|] eqn:Hr.
    2:{ unfold HandleRPC in H. rewrite Hctx in H.
        unfold bind, loadName in H. rewrite Hr in H. discriminate. }
    destruct (rpcRequestsPerRPC (handler w)) as [ireq|] eqn:Hreq.
    2:{ rewrite (HandleRPC_End_nil_counter ctx l r) in H by assumption. discriminate. }
    destruct (rpcResponsesPerRPC (handler w)) as [iresp|] eqn:Hresp.
    + rewrite (HandleRPC_End ctx l r BeginTime Err now w ireq iresp) in H by assumption.
      now injection H as _ <-.
    + exfalso. revert H. unfold HandleRPC. rewrite Hctx.
      destruct w as [[cl d rq rs rqc rsc] recs ms hd]. simpl in *. subst.
      unfold bind, loadName, self, LoadInt64, submit, when, ret. simpl.
      rewrite Hr. destruct cl; simpl; rewrite Hr; simpl; rewrite ?Hr; discriminate.
  - rewrite (HandleRPC_OtherStats ctx l) in H by assumption. now injection H as _ <-.
Qed.

(** ** Claims on the lifecycle dispatcher *)

(** C1: when the record of the attempt holds N received messages and M
    sent messages, the terminal event returns and gives the backend N on
    requests_per_rpc and M on responses_per_rpc on a server handler, and
    M on requests_per_rpc and N on responses_per_rpc on a client handler,
    each once and with the derived attributes, before the histogram
    measurements. *)
Theorem End_reports_message_counts
    ctx l r bt err now w ireq iresp (N M : Z) :
  getRPCInfo ctx = Some l -> records w !! l = Some r ->
  rpcRequestsPerRPC (handler w) = Some ireq ->
  rpcResponsesPerRPC (handler w) = Some iresp ->
  recvMsgs r = N -> sentMsgs r = M ->
  exists w',
    exec (HandleRPC ctx (End bt err) now) w = Return w' /\
    let attrs := getAttributes (fullMethodName r) err in
    (isClient (handler w) = false ->
     recorded w' =
       recorded w
       ++ [ mkMeasurement ireq (Int64 N) attrs; mkMeasurement iresp (Int64 M) attrs ]
       ++ histogramMeasurements (handler w) r (Since now bt) attrs) /\
    (isClient (handler w) = true ->
     recorded w' =
       recorded w
       ++ [ mkMeasurement ireq (Int64 M) attrs; mkMeasurement iresp (Int64 N) attrs ]
       ++ histogramMeasurements (handler w) r (Since now bt) attrs).
Proof.
  intros Hctx Hr Hreq Hresp HN HM.
  eexists. unfold exec.
  rewrite (HandleRPC_End ctx l r bt err now w ireq iresp) by assumption.
  split; [reflexivity|]. subst N M. simpl.
  split; intros ->; reflexivity.
Qed.

Lemma End_reports_message_counts_witness :
  exists w',
    exec (HandleRPC ctx0 (End 0 None) 5000000) serverWorld = Return w' /\
    let attrs := getAttributes (fullMethodName streamRecord) None in
    (isClient (handler serverWorld) = false ->
     recorded w' =
       recorded serverWorld
       ++ [ mkMeasurement (requestsPerRPC false) (Int64 1) attrs;
            mkMeasurement (responsesPerRPC false) (Int64 10) attrs ]
       ++ histogramMeasurements (handler serverWorld) streamRecord (Since 5000000 0) attrs) /\
    (isClient (handler serverWorld) = true ->
     recorded w' =
       recorded serverWorld
       ++ [ mkMeasurement (requestsPerRPC false) (Int64 10) attrs;
            mkMeasurement (responsesPerRPC false) (Int64 1) attrs ]
       ++ histogramMeasurements (handler serverWorld) streamRecord (Since 5000000 0) attrs).
Proof.
  apply (End_reports_message_counts ctx0 0%nat streamRecord 0 None 5000000
           serverWorld (requestsPerRPC false) (responsesPerRPC false) 1 10);
    reflexivity.
Defined.

(** C5: a terminal event that carries an error returns and reports the
    message counts the record holds, the same two values as a terminal
    event with no error reports from the same record; the record is left
    as it was, no counter is set back to zero. *)
Theorem End_error_keeps_counts ctx l r bt (e : error) now w ireq iresp :
  getRPCInfo ctx = Some l -> records w !! l = Some r ->
  rpcRequestsPerRPC (handler w) = Some ireq ->
  rpcResponsesPerRPC (handler w) = Some iresp ->
  let requests := if isClient (handler w) then sentMsgs r else recvMsgs r in
  let responses := if isClient (handler w) then recvMsgs r else sentMsgs r in
  exists wErr wOk,
    exec (HandleRPC ctx (End bt (Some e)) now) w = Return wErr /\
    exec (HandleRPC ctx (End bt None) now) w = Return wOk /\
    (exists tail,
       recorded wErr =
         recorded w
         ++ mkMeasurement ireq (Int64 requests) (getAttributes (fullMethodName r) (Some e))
         :: mkMeasurement iresp (Int64 responses) (getAttributes (fullMethodName r) (Some e))
         :: tail) /\
    (exists tail,
       recorded wOk =
         recorded w
         ++ mkMeasurement ireq (Int64 requests) (getAttributes (fullMethodName r) None)
         :: mkMeasurement iresp (Int64 responses) (getAttributes (fullMethodName r) None)
         :: tail) /\
    records wErr = records w /\
    records wErr !! l = Some r.
Proof.
  intros Hctx Hr Hreq Hresp requests responses.
  do 2 eexists. unfold exec.
  rewrite !(HandleRPC_End ctx l r bt _ now w ireq iresp) by assumption.
  repeat split; simpl; try assumption; eexists; reflexivity.
Qed.

Lemma End_error_keeps_counts_witness :
  exists wErr wOk,
    exec (HandleRPC ctx0 (End 0 (Some notFoundError)) 7) clientWorld
      = Return wErr /\
    exec (HandleRPC ctx0 (End 0 None) 7) clientWorld = Return wOk /\
    (exists tail,
       recorded wErr =
         recorded clientWorld
         ++ mkMeasurement (requestsPerRPC true) (Int64 10)
              (getAttributes (fullMethodName streamRecord)
                 (Some notFoundError))
         :: mkMeasurement (responsesPerRPC true) (Int64 1)
              (getAttributes (fullMethodName streamRecord)
                 (Some notFoundError))
         :: tail) /\
    (exists tail,
       recorded wOk =
         recorded clientWorld
         ++ mkMeasurement (requestsPerRPC true) (Int64 10)
              (getAttributes (fullMethodName streamRecord) None)
         :: mkMeasurement (responsesPerRPC true) (Int64 1)
              (getAttributes (fullMethodName streamRecord) None)
         :: tail) /\
    records wErr = records clientWorld /\
    records wErr !! 0%nat = Some streamRecord.
Proof.
  apply (End_error_keeps_counts ctx0 0%nat streamRecord 0
           notFoundError 7 clientWorld
           (requestsPerRPC true) (responsesPerRPC true));
    reflexivity.
Defined.

(** C6: an event of any kind that arrives with a context that carries no
    record returns normally and leaves the world as it was: no record is
    changed, no measurement is given to the backend, and nothing is given
    to [otel.Handle] either. *)
Theorem HandleRPC_without_record ctx rs now w :
  getRPCInfo ctx = None ->
  HandleRPC ctx rs now w = Return (tt, w) /\
  exists w',
    exec (HandleRPC ctx rs now) w = Return w' /\
    records w' = records w /\ recorded w' = recorded w /\
    handled w' = handled w /\ handler w' = handler w.
Proof.
  intros H. unfold exec. rewrite (HandleRPC_no_record ctx rs now w H).
  split; [reflexivity|]. exists w. repeat split.
Qed.

Lemma HandleRPC_without_record_witness :
  HandleRPC Background (End 0 None) 7 zeroWorld = Return (tt, zeroWorld) /\
  exists w',
    exec (HandleRPC Background (End 0 None) 7) zeroWorld = Return w' /\
    records w' = records zeroWorld /\ recorded w' = recorded zeroWorld /\
    handled w' = handled zeroWorld /\ handler w' = handler zeroWorld.
Proof.
  apply (HandleRPC_without_record Background (End 0 None) 7 zeroWorld).
  reflexivity.
Defined.

(** C7: on a handler with both size histograms, the terminal event
    returns and, after the two counters and the duration, records into
    the request-size histogram the sent bytes on a client and the
    received bytes on a server, and into the response-size histogram the
    other of the two. *)
Theorem End_records_sizes ctx l r bt err now w ireq iresp isz osz :
  getRPCInfo ctx = Some l -> records w !! l = Some r ->
  rpcRequestsPerRPC (handler w) = Some ireq ->
  rpcResponsesPerRPC (handler w) = Some iresp ->
  rpcRequestSize (handler w) = Some isz ->
  rpcResponseSize (handler w) = Some osz ->
  exists w' before,
    exec (HandleRPC ctx (End bt err) now) w = Return w' /\
    let attrs := getAttributes (fullMethodName r) err in
    before =
      [ mkMeasurement ireq
          (Int64 (if isClient (handler w) then sentMsgs r else recvMsgs r)) attrs;
        mkMeasurement iresp
          (Int64 (if isClient (handler w) then recvMsgs r else sentMsgs r)) attrs ]
      ++ measure (rpcDuration (handler w))
           (Float64OfInt64 (Milliseconds (Since now bt))) attrs /\
    (isClient (handler w) = true ->
     recorded w' =
       recorded w ++ before
       ++ [ mkMeasurement isz (Int64 (sentBytes r)) attrs;
            mkMeasurement osz (Int64 (recvBytes r)) attrs ]) /\
    (isClient (handler w) = false ->
     recorded w' =
       recorded w ++ before
       ++ [ mkMeasurement isz (Int64 (recvBytes r)) attrs;
            mkMeasurement osz (Int64 (sentBytes r)) attrs ]).
Proof.
  intros Hctx Hr Hreq Hresp Hisz Hosz.
  do 2 eexists. unfold exec.
  rewrite (HandleRPC_End ctx l r bt err now w ireq iresp) by assumption.
  split; [reflexivity|]. cbv zeta. split; [reflexivity|].
  unfold histogramMeasurements. rewrite Hisz, Hosz. simpl.
  split; intros ->; rewrite <- ?app_assoc; reflexivity.
Qed.

Lemma End_records_sizes_witness :
  exists w' before,
    exec (HandleRPC ctx0 (End 0 None) 3000000) clientWorld = Return w' /\
    let attrs := getAttributes (fullMethodName streamRecord) None in
    before =
      [ mkMeasurement (requestsPerRPC true) (Int64 10) attrs;
        mkMeasurement (responsesPerRPC true) (Int64 1) attrs ]
      ++ measure (Some (duration true)) (Float64OfInt64 3) attrs /\
    (isClient (handler clientWorld) = true ->
     recorded w' =
       recorded clientWorld ++ before
       ++ [ mkMeasurement (requestSize true) (Int64 18) attrs;
            mkMeasurement (responseSize true) (Int64 0) attrs ]) /\
    (isClient (handler clientWorld) = false ->
     recorded w' =
       recorded clientWorld ++ before
       ++ [ mkMeasurement (requestSize true) (Int64 0) attrs;
            mkMeasurement (responseSize true) (Int64 18) attrs ]).
Proof.
  apply (End_records_sizes ctx0 0%nat streamRecord 0 None 3000000 clientWorld
           (requestsPerRPC true) (responsesPerRPC true)
           (requestSize true) (responseSize true));
    reflexivity.
Defined.

(** C9: a header event or a trailer event, inbound or outbound, and a
    begin event, arriving with a record attached, return normally and
    leave the world as it was: every field of the record keeps its value
    and the backend receives no measurement. *)
Theorem HandleRPC_header_trailer_begin ctx l r rs now w :
  In rs [InHeader; OutHeader; InTrailer; OutTrailer; Begin] ->
  getRPCInfo ctx = Some l -> records w !! l = Some r ->
  exists w',
    exec (HandleRPC ctx rs now) w = Return w' /\
    w' = w /\
    records w' !! l = Some r /\
    recorded w' = recorded w /\
    handled w' = handled w.
Proof.
  intros Hin Hctx Hr. exists w. unfold exec.
  rewrite HandleRPC_ignored.
  - repeat split. exact Hr.
  - simpl in Hin. repeat (destruct Hin as [<-|Hin]; [reflexivity|]). contradiction.
Qed.

Lemma HandleRPC_header_trailer_begin_witness :
  exists w',
    exec (HandleRPC ctx0 OutTrailer 7) serverWorld = Return w' /\
    w' = serverWorld /\
    records w' !! 0%nat = Some streamRecord /\
    recorded w' = recorded serverWorld /\
    handled w' = handled serverWorld.
Proof.
  apply (HandleRPC_header_trailer_begin ctx0 0%nat streamRecord OutTrailer 7 serverWorld).
  - simpl. tauto.
  - reflexivity.
  - reflexivity.
Defined.

(** ** A whole attempt *)

(** [TagRPC] makes a record with every counter at zero, at an address no
    record had, and attaches it to the context it returns. *)
Lemma TagRPC_fresh ctx m w :
  exists l w',
    TagRPC ctx m w = Return (setRPCInfo ctx l, w') /\
    records w !! l = None /\
    records w' = <[l := mkRpcInfo m 0 0 0 0]> (records w) /\
    handler w' = handler w /\ recorded w' = recorded w /\ handled w' = handled w.
Proof.
  exists (fresh (dom (records w))). eexists. split; [reflexivity|].
  simpl. repeat split.
  apply not_elem_of_dom. apply is_fresh.
Qed.

(** The events before the terminal one change the record of the attempt
    and nothing else, apart from the diagnostics of unknown kinds. *)
Lemma handleAll_body evs : forall ctx l r w,
  noEnd evs = true ->
  getRPCInfo ctx = Some l -> records w !! l = Some r ->
  handleAll ctx evs w =
  Return (tt, mkWorld (handler w)
                (<[l := recordAfter (handler w) evs r]> (records w))
                (recorded w) (handled w ++ diagnostics evs)).
Proof.
  induction evs as [|[rs now] evs IH]; intros ctx l r w Hne Hctx Hr.
  - simpl. unfold ret. rewrite insert_id by exact Hr.
    rewrite app_nil_r. now destruct w.
  - cbn [handleAll]. unfold bind.
    destruct rs; try discriminate Hne;
      try (rewrite HandleRPC_ignored by reflexivity;
           rewrite (IH ctx l r w Hne Hctx Hr); reflexivity).
    + rewrite (HandleRPC_InPayload ctx l r) by assumption.
      rewrite (IH ctx l (afterInPayload (handler w) Length r)); try assumption.
      * cbn. now rewrite insert_insert_eq.
      * cbn. apply lookup_insert_eq.
    + rewrite (HandleRPC_OutPayload ctx l r) by assumption.
      rewrite (IH ctx l (afterOutPayload (handler w) Length r)); try assumption.
      * cbn. now rewrite insert_insert_eq.
      * cbn. apply lookup_insert_eq.
    + rewrite (HandleRPC_OtherStats ctx l) by assumption.
      rewrite (IH ctx l r); try assumption.
      cbn. now rewrite <- app_assoc.
Qed.

Lemma afterInPayload_range h n r : recordInRange r -> recordInRange (afterInPayload h n r).
Proof.
  intros (H1 & H2 & H3 & H4). unfold recordInRange, afterInPayload, Int64.add. simpl.
  refine (conj H1 (conj H2 (conj (wrap64_range _) _))).
  destruct (notNil (rpcRequestSize h)); [apply wrap64_range | assumption].
Qed.

Lemma afterOutPayload_range h n r : recordInRange r -> recordInRange (afterOutPayload h n r).
Proof.
  intros (H1 & H2 & H3 & H4). unfold recordInRange, afterOutPayload, Int64.add. simpl.
  refine (conj (wrap64_range _) (conj _ (conj H3 H4))).
  destruct (notNil (rpcResponseSize h)); [apply wrap64_range | assumption].
Qed.

(** The record after a run counts its payload events, modulo [2^64]. *)
Lemma recordAfter_counts h evs : forall r,
  recordInRange r ->
  fullMethodName (recordAfter h evs r) = fullMethodName r /\
  recvMsgs (recordAfter h evs r) = Int64.wrap64 (recvMsgs r + inPayloads evs) /\
  sentMsgs (recordAfter h evs r) = Int64.wrap64 (sentMsgs r + outPayloads evs) /\
  recvBytes (recordAfter h evs r) =
    (if notNil (rpcRequestSize h) then Int64.wrap64 (recvBytes r + inBytes evs)
     else recvBytes r) /\
  sentBytes (recordAfter h evs r) =
    (if notNil (rpcResponseSize h) then Int64.wrap64 (sentBytes r + outBytes evs)
     else sentBytes r).
Proof.
  induction evs as [|[rs now] evs IH]; intros r Hr.
  - destruct Hr as (H1 & H2 & H3 & H4). simpl. rewrite !Z.add_0_r.
    rewrite !wrap64_in_range by assumption.
    repeat split; destruct (notNil _); reflexivity.
  - destruct rs; try exact (IH r Hr).
    + destruct (IH _ (afterInPayload_range h Length r Hr)) as (E0 & E1 & E2 & E3 & E4).
      cbn [recordAfter inPayloads outPayloads inBytes outBytes].
      rewrite E0, E1, E2, E3, E4. unfold afterInPayload, Int64.add. simpl.
      repeat split.
      * rewrite wrap64_add_l. f_equal. lia.
      * destruct (notNil (rpcRequestSize h)); [|reflexivity].
        rewrite wrap64_add_l. f_equal. lia.
    + destruct (IH _ (afterOutPayload_range h Length r Hr)) as (E0 & E1 & E2 & E3 & E4).
      cbn [recordAfter inPayloads outPayloads inBytes outBytes].
      rewrite E0, E1, E2, E3, E4. unfold afterOutPayload, Int64.add. simpl.
      repeat split.
      * rewrite wrap64_add_l. f_equal. lia.
      * destruct (notNil (rpcResponseSize h)); [|reflexivity].
        rewrite wrap64_add_l. f_equal. lia.
Qed.

(** X13: one attempt, from [TagRPC] to the terminal event: the two
    counters receive the numbers of payload events of the attempt, by
    role; below [2^63] events the numbers are exact. *)
Lemma attempt_reports_payload_counts ctx m evs bt err now w ireq iresp :
  noEnd evs = true ->
  rpcRequestsPerRPC (handler w) = Some ireq ->
  rpcResponsesPerRPC (handler w) = Some iresp ->
  inPayloads evs <= Int64.max_int -> outPayloads evs <= Int64.max_int ->
  exists w' tail,
    exec (attempt ctx m evs bt err now) w = Return w' /\
    let attrs := getAttributes m err in
    recorded w' =
      recorded w
      ++ mkMeasurement ireq
           (Int64 (if isClient (handler w) then outPayloads evs else inPayloads evs)) attrs
      :: mkMeasurement iresp
           (Int64 (if isClient (handler w) then inPayloads evs else outPayloads evs)) attrs
      :: tail.
Proof.
  intros Hne Hreq Hresp Hin Hout.
  destruct (TagRPC_fresh ctx m w) as (l & w1 & Htag & Hnone & Hrecs & Hh & Hrec & Hhd).
  unfold exec, attempt, bind. rewrite Htag.
  assert (Hl : records w1 !! l = Some (mkRpcInfo m 0 0 0 0)).
  { rewrite Hrecs. apply lookup_insert_eq. }
  rewrite (handleAll_body evs (setRPCInfo ctx l) l _ w1 Hne eq_refl Hl).
  set (r := recordAfter (handler w1) evs (mkRpcInfo m 0 0 0 0)).
  rewrite (HandleRPC_End (setRPCInfo ctx l) l r bt err now _ ireq iresp);
    try reflexivity; cbn; try (rewrite Hh; assumption); try apply lookup_insert_eq.
  destruct (recordAfter_counts (handler w1) evs (mkRpcInfo m 0 0 0 0))
    as (E0 & E1 & E2 & _).
  { unfold recordInRange. simpl.
    assert (H0 : Int64.in_range 0) by (split; vm_compute; discriminate).
    auto. }
  fold r in E0, E1, E2. simpl in E0, E1, E2.
  assert (Hi : 0 <= inPayloads evs).
  { clear. induction evs as [|[[] ?] ? IH]; simpl; lia. }
  assert (Ho : 0 <= outPayloads evs).
  { clear. induction evs as [|[[] ?] ? IH]; simpl; lia. }
  rewrite wrap64_in_range in E1, E2
    by (unfold Int64.in_range, Int64.min_int, Int64.max_int, Int64.half_modulus in *; lia).
  do 2 eexists. split; [reflexivity|]. cbn.
  rewrite Hh, Hrec, E0, E1, E2. reflexivity.
Qed.

(** The server-streaming scenario: one request, ten responses of the
    sizes the test server sends, on a server handler with every
    instrument. *)
Example attempt_server_streaming :
  let evs := [ (InHeader, 0); (Begin, 0); (InPayload 0, 1); (OutHeader, 2) ]
             ++ [ (OutPayload 0, 3) ]
             ++ map (fun i => (OutPayload 2, 3 + i)) [1; 2; 3; 4; 5; 6; 7; 8; 9]
             ++ [ (OutTrailer, 13) ] in
  let attrs := getAttributes "/testserver.TestsService/Stream" None in
  (outcome_map recorded (exec (attempt Background "/testserver.TestsService/Stream" evs 0 None 2000000)
                  (mkWorld (provisioned false allOn) ∅ [] []))) =
  Return
    [ mkMeasurement (requestsPerRPC false) (Int64 1) attrs;
      mkMeasurement (responsesPerRPC false) (Int64 10) attrs;
      mkMeasurement (duration false) (Float64OfInt64 2) attrs;
      mkMeasurement (requestSize false) (Int64 0) attrs;
      mkMeasurement (responseSize false) (Int64 18) attrs ].
Proof. vm_compute. reflexivity. Qed.

(** ** Instrument provisioner *)

Lemma applyAll_latency options : forall c,
  instrumentLatency (applyAll options c) = latencyOption options (instrumentLatency c).
Proof.
  unfold applyAll. induction options as [|o rest IH]; intros c; [reflexivity|].
  simpl. rewrite IH. destruct o; reflexivity.
Qed.

Lemma applyAll_sizes options : forall c,
  instrumentSizes (applyAll options c) = sizesOption options (instrumentSizes c).
Proof.
  unfold applyAll. induction options as [|o rest IH]; intros c; [reflexivity|].
  simpl. rewrite IH. destruct o; reflexivity.
Qed.

(** Construction asks the meter for the planned instruments, in order,
    and stops at the first rejection. *)
Lemma newHandler_askAll g ic options log :
  let c := applyAll options zeroConfig in
  newHandler g ic options log =
  match askAll (meterOf g c) (planned ic c) log with
  | (log', None) => (log', inl (provisioned ic c))
  | (log', Some e) => (log', inr e)
  end.
Proof.
  intros c. unfold newHandler. fold c.
  generalize (meterOf g c) as meter. intros meter.
  unfold planned, provisioned, requestsPerRPC, responsesPerRPC, duration,
    requestSize, responseSize.
  destruct (instrumentLatency c), (instrumentSizes c);
    unfold bindP, create, retP; simpl;
    repeat match goal with
           | |- context [meter ?l ?i] => destruct (meter l i) eqn:?; simpl
           end;
    reflexivity.
Qed.

Lemma askAll_calls meter reqs : forall log,
  exists calls,
    fst (askAll meter reqs log) = log ++ calls /\
    match snd (askAll meter reqs log) with
    | None => calls = accepted reqs
    | Some e =>
        exists pre r post,
          reqs = pre ++ r :: post /\
          calls = accepted pre ++ [(r, Some e)] /\
          meter (log ++ accepted pre) r = Some e
    end.
Proof.
  induction reqs as [|r rest IH]; intros log; simpl.
  - exists []. now rewrite app_nil_r.
  - destruct (meter log r) as [e|] eqn:Hm.
    + exists [(r, Some e)]. simpl. split; [reflexivity|].
      exists [], r, rest. simpl. now rewrite app_nil_r.
    + destruct (IH (log ++ [(r, None)])) as (calls & Hfst & Hsnd).
      exists ((r, None) :: calls). split.
      * rewrite Hfst, <- app_assoc. reflexivity.
      * destruct (snd (askAll meter rest (log ++ [(r, None)]))) as [e|].
        -- destruct Hsnd as (pre & r' & post & -> & -> & Hrej).
           exists (r :: pre), r', post. simpl. repeat split.
           rewrite <- app_assoc in Hrej. exact Hrej.
        -- now subst calls.
Qed.

Lemma accepted_no_error reqs r e : ~ In (r, Some e) (accepted reqs).
Proof.
  unfold accepted. intros H. apply in_map_iff in H.
  destruct H as (i & [= _ ?] & _).
Qed.

(** The creations construction makes, read off the log it returns: an
    error in the log is the error returned, an error returned is in the
    log, and with no error in the log a handler is returned. *)
Lemma newHandler_log_shape g ic options log :
  let c := applyAll options zeroConfig in
  let res := newHandler g ic options log in
  (instrumentLatency c = latencyOption options false /\
   instrumentSizes c = sizesOption options false /\
   latencyOption [] false = false /\ sizesOption [] false = false) /\
  exists calls,
    fst res = log ++ calls /\
    (forall r e, In (r, Some e) calls -> snd res = inr e) /\
    (forall e, snd res = inr e -> exists r, In (r, Some e) calls) /\
    ((forall r e, ~ In (r, Some e) calls) ->
     exists h,
       snd res = inl h /\
       calls = accepted (planned ic c) /\
       In (requestsPerRPC ic) (map fst calls) /\
       In (responsesPerRPC ic) (map fst calls) /\
       (In (duration ic) (map fst calls) <-> latencyOption options false = true) /\
       (In (requestSize ic) (map fst calls) <-> sizesOption options false = true) /\
       (In (responseSize ic) (map fst calls) <-> sizesOption options false = true) /\
       isClient h = ic /\
       rpcRequestsPerRPC h = Some (requestsPerRPC ic) /\
       rpcResponsesPerRPC h = Some (responsesPerRPC ic) /\
       rpcDuration h =
         (if latencyOption options false then Some (duration ic) else None) /\
       rpcRequestSize h =
         (if sizesOption options false then Some (requestSize ic) else None) /\
       rpcResponseSize h =
         (if sizesOption options false then Some (responseSize ic) else None)).
Proof.
  intros c res.
  assert (Hl : instrumentLatency c = latencyOption options false)
    by apply applyAll_latency.
  assert (Hs : instrumentSizes c = sizesOption options false)
    by apply applyAll_sizes.
  split; [repeat split; assumption|].
  subst res. rewrite newHandler_askAll. fold c.
  destruct (askAll_calls (meterOf g c) (planned ic c) log) as (calls & Hfst & Hsnd).
  destruct (askAll (meterOf g c) (planned ic c) log) as [log' [e|]];
    cbn [fst snd] in *; subst log'; exists calls.
  - destruct Hsnd as (pre & r & post & Hplan & -> & Hrej).
    split; [reflexivity|]. split; [|split].
    + intros r' e' Hin. apply in_app_or in Hin. destruct Hin as [Hin|Hin].
      * now apply accepted_no_error in Hin.
      * destruct Hin as [[= _ <-]|[]]. reflexivity.
    + intros e' [= <-]. exists r. apply in_or_app. right. now left.
    + intros Hno. exfalso. apply (Hno r e). apply in_or_app. right. now left.
  - subst calls. split; [reflexivity|]. split; [|split].
    + intros r e Hin. now apply accepted_no_error in Hin.
    + intros e [=].
    + intros _. exists (provisioned ic c). split; [reflexivity|]. split; [reflexivity|].
      unfold accepted. rewrite map_map. simpl. rewrite map_id.
      unfold planned, provisioned. rewrite Hl, Hs. simpl.
      destruct (latencyOption options false), (sizesOption options false); simpl;
        repeat split; try tauto; try discriminate;
        intros H; exfalso;
        repeat (destruct H as [H|H]; [destruct ic; discriminate H|]);
        exact H.
Qed.

(** The creations before a point of a list were all accepted by the
    meter, each asked after the ones before it. *)
Lemma askAll_accepts meter reqs : forall log,
  (forall pre r post, reqs = pre ++ r :: post -> meter (log ++ accepted pre) r = None) ->
  askAll meter reqs log = (log ++ accepted reqs, None).
Proof.
  induction reqs as [|r0 rest IH]; intros log Hacc; simpl.
  - now rewrite app_nil_r.
  - pose proof (Hacc [] r0 rest eq_refl) as H0. simpl in H0. rewrite app_nil_r in H0.
    rewrite H0, IH.
    + rewrite <- app_assoc. reflexivity.
    + intros pre r post ->. rewrite <- app_assoc.
      apply (Hacc (r0 :: pre) r post). reflexivity.
Qed.

Lemma askAll_rejects meter pre : forall r post e log,
  (forall pre1 r1 post1, pre = pre1 ++ r1 :: post1 ->
     meter (log ++ accepted pre1) r1 = None) ->
  meter (log ++ accepted pre) r = Some e ->
  askAll meter (pre ++ r :: post) log = (log ++ accepted pre ++ [(r, Some e)], Some e).
Proof.
  induction pre as [|r0 rest IH]; intros r post e log Hacc Hrej; simpl in *.
  - rewrite app_nil_r in Hrej. now rewrite Hrej.
  - pose proof (Hacc [] r0 rest eq_refl) as H0. simpl in H0. rewrite app_nil_r in H0.
    rewrite H0, (IH r post e).
    + rewrite <- app_assoc. reflexivity.
    + intros pre1 r1 post1 ->. rewrite <- app_assoc.
      apply (Hacc (r0 :: pre1) r1 post1). reflexivity.
    + rewrite <- app_assoc. exact Hrej.
Qed.

(** A meter accepts every creation of a list, or there is a first one it
    rejects. *)
Lemma accepts_or_rejects (meter : Meter) reqs : forall log,
  (forall pre r post, reqs = pre ++ r :: post -> meter (log ++ accepted pre) r = None) \/
  (exists pre r post e,
     reqs = pre ++ r :: post /\
     (forall pre1 r1 post1, pre = pre1 ++ r1 :: post1 ->
        meter (log ++ accepted pre1) r1 = None) /\
     meter (log ++ accepted pre) r = Some e).
Proof.
  induction reqs as [|r0 rest IH]; intros log.
  - left. intros [|? ?] r post H; discriminate H.
  - destruct (meter log r0) as [e|] eqn:H0.
    + right. exists [], r0, rest, e. simpl. rewrite app_nil_r.
      split; [reflexivity|]. split; [|exact H0].
      intros [|? ?] r1 post1 H; discriminate H.
    + destruct (IH (log ++ [(r0, None)])) as [Hacc|(pre & r & post & e & -> & Hacc & Hrej)].
      * left. intros [|x pre] r post H.
        -- injection H as <- _. simpl. now rewrite app_nil_r.
        -- injection H as <- ->. simpl.
           specialize (Hacc pre r post eq_refl). now rewrite <- app_assoc in Hacc.
      * right. exists (r0 :: pre), r, post, e. split; [reflexivity|]. split.
        -- intros [|x pre1] r1 post1 H.
           ++ injection H as <- _. simpl. now rewrite app_nil_r.
           ++ injection H as <- ->. simpl.
              specialize (Hacc pre1 r1 post1 eq_refl). now rewrite <- app_assoc in Hacc.
        -- simpl. now rewrite <- app_assoc in Hrej.
Qed.

(** C8: construction is decided by the answers of the meter it asks, the
    one of the provider and the name of the configuration.  It asks for
    the two counters, then for the duration histogram exactly when the
    options enable latency, then for the two size histograms exactly
    when the options enable sizes; with no option given both are off.
    When the meter accepts every one of these creations, construction
    returns the handler that holds exactly those instruments, the two
    counters always among them.  When the meter rejects one of them,
    the ones before it being accepted, construction returns the error
    of that rejection and no handler, and asks for nothing more.  One
    of the two always happens.  In the log of creations it returns, an
    error is the error returned and an error returned is in the log. *)
Theorem newHandler_provisions g ic options log :
  let c := applyAll options zeroConfig in
  let meter := meterOf g c in
  let res := newHandler g ic options log in
  let latency := latencyOption options false in
  let sizes := sizesOption options false in
  let asked :=
    [requestsPerRPC ic; responsesPerRPC ic]
    ++ (if latency then [duration ic] else [])
    ++ (if sizes then [requestSize ic; responseSize ic] else []) in
  let allAccepted (reqs : list Instrument) :=
    forall pre r post, reqs = pre ++ r :: post -> meter (log ++ accepted pre) r = None in
  (instrumentLatency c = latency /\
   instrumentSizes c = sizes /\
   latencyOption [] false = false /\ sizesOption [] false = false) /\
  (allAccepted asked ->
   res = (log ++ accepted asked,
          inl (mkHandler ic
                 (if latency then Some (duration ic) else None)
                 (if sizes then Some (requestSize ic) else None)
                 (if sizes then Some (responseSize ic) else None)
                 (Some (requestsPerRPC ic))
                 (Some (responsesPerRPC ic))))) /\
  (forall pre r post e,
     asked = pre ++ r :: post -> allAccepted pre ->
     meter (log ++ accepted pre) r = Some e ->
     res = (log ++ accepted pre ++ [(r, Some e)], inr e)) /\
  (allAccepted asked \/
   exists pre r post e,
     asked = pre ++ r :: post /\ allAccepted pre /\
     meter (log ++ accepted pre) r = Some e) /\
  exists calls,
    fst res = log ++ calls /\
    (forall r e, In (r, Some e) calls -> snd res = inr e) /\
    (forall e, snd res = inr e -> exists r, In (r, Some e) calls) /\
    ((forall r e, ~ In (r, Some e) calls) ->
     exists h,
       snd res = inl h /\
       calls = accepted (planned ic c) /\
       In (requestsPerRPC ic) (map fst calls) /\
       In (responsesPerRPC ic) (map fst calls) /\
       (In (duration ic) (map fst calls) <-> latencyOption options false = true) /\
       (In (requestSize ic) (map fst calls) <-> sizesOption options false = true) /\
       (In (responseSize ic) (map fst calls) <-> sizesOption options false = true) /\
       isClient h = ic /\
       rpcRequestsPerRPC h = Some (requestsPerRPC ic) /\
       rpcResponsesPerRPC h = Some (responsesPerRPC ic) /\
       rpcDuration h =
         (if latencyOption options false then Some (duration ic) else None) /\
       rpcRequestSize h =
         (if sizesOption options false then Some (requestSize ic) else None) /\
       rpcResponseSize h =
         (if sizesOption options false then Some (responseSize ic) else None)).
Proof.
  intros c meter res latency sizes asked allAccepted.
  assert (Hl : instrumentLatency c = latency) by apply applyAll_latency.
  assert (Hs : instrumentSizes c = sizes) by apply applyAll_sizes.
  assert (Hplan : planned ic c = asked).
  { unfold planned, asked. now rewrite Hl, Hs. }
  assert (Hprov : provisioned ic c =
            mkHandler ic
              (if latency then Some (duration ic) else None)
              (if sizes then Some (requestSize ic) else None)
              (if sizes then Some (responseSize ic) else None)
              (Some (requestsPerRPC ic)) (Some (responsesPerRPC ic))).
  { unfold provisioned. now rewrite Hl, Hs. }
  assert (Hres : res =
            match askAll meter asked log with
            | (log', None) => (log', inl (provisioned ic c))
            | (log', Some e) => (log', inr e)
            end).
  { subst res. rewrite newHandler_askAll. fold c. fold meter. now rewrite Hplan. }
  split; [repeat split; assumption|].
  split; [|split; [|split]].
  - intros Hacc. rewrite Hres, (askAll_accepts meter asked log Hacc), Hprov. reflexivity.
  - intros pre r post e Hasked Hacc Hrej.
    rewrite Hres, Hasked, (askAll_rejects meter pre r post e log Hacc Hrej). reflexivity.
  - apply accepts_or_rejects.
  - apply (newHandler_log_shape g ic options log).
Qed.

Lemma newHandler_provisions_witness :
  newHandler acceptAll true [WithInstrumentLatency true] [] =
    ( accepted [requestsPerRPC true; responsesPerRPC true; duration true],
      inl (mkHandler true (Some (duration true)) None None
             (Some (requestsPerRPC true)) (Some (responsesPerRPC true))) ) /\
  newHandler (rejectName "rpc.server.duration" (status.OpaqueError "duplicate"))
    false [WithInstrumentLatency true; WithInstrumentSizes true] [] =
    ( accepted [requestsPerRPC false; responsesPerRPC false]
      ++ [(duration false, Some (status.OpaqueError "duplicate"))],
      inr (status.OpaqueError "duplicate") ).
Proof.
  split.
  - apply (proj1 (proj2 (newHandler_provisions acceptAll true
                           [WithInstrumentLatency true] []))).
    intros pre r post _. reflexivity.
  - apply (proj1 (proj2 (proj2
             (newHandler_provisions
                (rejectName "rpc.server.duration" (status.OpaqueError "duplicate"))
                false [WithInstrumentLatency true; WithInstrumentSizes true] [])))
             [requestsPerRPC false; responsesPerRPC false] (duration false)
             [requestSize false; responseSize false]).
    + reflexivity.
    + intros [|a [|b [|? ?]]] r post H; simpl in H;
        try discriminate H; injection H; intros; subst; reflexivity.
    + reflexivity.
Defined.

Lemma TagRPC_handler ctx m w ctx' w' :
  TagRPC ctx m w = Return (ctx', w') -> handler w' = handler w.
Proof. intros [= _ <-]. reflexivity. Qed.

(** C10: a handler that construction returned has the request-size
    histogram exactly when it has the response-size histogram, both
    exactly when the options enable sizes, and no callback changes a
    field of it.  So, whatever the role, a payload event adds its length
    to the byte counter of its direction exactly when the terminal event
    reads that counter for a size histogram: with sizes on, inbound
    payloads add to the received bytes, outbound payloads to the sent
    bytes, and the terminal event records both counters; with sizes off,
    payloads leave both byte counters as they are and the terminal event
    records no size. *)
Theorem sizes_provisioned_together g ic options log log' h :
  newHandler g ic options log = (log', inl h) ->
  let sizes := sizesOption options false in
  (is_Some (rpcRequestSize h) <-> is_Some (rpcResponseSize h)) /\
  notNil (rpcRequestSize h) = sizes /\
  notNil (rpcResponseSize h) = sizes /\
  (forall ctx rs now w w' u,
     handler w = h -> HandleRPC ctx rs now w = Return (u, w') -> handler w' = h) /\
  (forall ctx m w ctx' w',
     handler w = h -> TagRPC ctx m w = Return (ctx', w') -> handler w' = h) /\
  (forall ctx l r n now w,
     handler w = h -> getRPCInfo ctx = Some l -> records w !! l = Some r ->
     (exists wIn,
        exec (HandleRPC ctx (InPayload n) now) w = Return wIn /\
        records wIn !! l =
          Some (mkRpcInfo (fullMethodName r) (sentMsgs r) (sentBytes r)
                  (Int64.add (recvMsgs r) 1)
                  (if sizes then Int64.add (recvBytes r) (Int64.wrap64 n)
                   else recvBytes r))) /\
     (exists wOut,
        exec (HandleRPC ctx (OutPayload n) now) w = Return wOut /\
        records wOut !! l =
          Some (mkRpcInfo (fullMethodName r)
                  (Int64.add (sentMsgs r) 1)
                  (if sizes then Int64.add (sentBytes r) (Int64.wrap64 n)
                   else sentBytes r)
                  (recvMsgs r) (recvBytes r))) /\
     (forall bt err,
        exists wEnd,
          exec (HandleRPC ctx (End bt err) now) w = Return wEnd /\
          let attrs := getAttributes (fullMethodName r) err in
          recorded wEnd =
            recorded w
            ++ [ mkMeasurement (requestsPerRPC ic)
                   (Int64 (if ic then sentMsgs r else recvMsgs r)) attrs;
                 mkMeasurement (responsesPerRPC ic)
                   (Int64 (if ic then recvMsgs r else sentMsgs r)) attrs ]
            ++ measure (rpcDuration h)
                 (Float64OfInt64 (Milliseconds (Since now bt))) attrs
            ++ (if sizes then
                  [ mkMeasurement (requestSize ic)
                      (Int64 (if ic then sentBytes r else recvBytes r)) attrs;
                    mkMeasurement (responseSize ic)
                      (Int64 (if ic then recvBytes r else sentBytes r)) attrs ]
                else []))).
Proof.
  intros Hnew sizes.
  rewrite newHandler_askAll in Hnew.
  set (c := applyAll options zeroConfig) in *.
  assert (Hs : instrumentSizes c = sizes) by apply applyAll_sizes.
  destruct (askAll (meterOf g c) (planned ic c) log) as [log'' [e|]];
    [discriminate|]. injection Hnew as _ <-.
  unfold provisioned. simpl. rewrite Hs.
  split; [|split; [|split; [|split; [|split]]]].
  - destruct sizes; split; intros [x Hx]; try discriminate; eexists; reflexivity.
  - now destruct sizes.
  - now destruct sizes.
  - intros ctx rs now w w' u Hw H. rewrite <- Hw. eapply HandleRPC_handler, H.
  - intros ctx m w ctx' w' Hw H. rewrite <- Hw. eapply TagRPC_handler, H.
  - intros ctx l r n now w Hw Hctx Hr. split; [|split].
    + eexists. unfold exec. rewrite (HandleRPC_InPayload ctx l r) by assumption.
      split; [reflexivity|]. cbn [records]. rewrite lookup_insert_eq.
      unfold afterInPayload. rewrite Hw. simpl. now destruct sizes.
    + eexists. unfold exec. rewrite (HandleRPC_OutPayload ctx l r) by assumption.
      split; [reflexivity|]. cbn [records]. rewrite lookup_insert_eq.
      unfold afterOutPayload. rewrite Hw. simpl. now destruct sizes.
    + intros bt err. eexists. unfold exec.
      rewrite (HandleRPC_End ctx l r bt err now w (requestsPerRPC ic) (responsesPerRPC ic))
        by (try assumption; rewrite Hw; reflexivity).
      split; [reflexivity|]. cbn [recorded]. rewrite Hw.
      unfold histogramMeasurements. simpl.
      destruct sizes; reflexivity.
Qed.

Lemma sizes_provisioned_together_witness :
  let h := provisioned true (mkConfig None "" true false) in
  let sizes := sizesOption [WithInstrumentSizes true] false in
  (is_Some (rpcRequestSize h) <-> is_Some (rpcResponseSize h)) /\
  notNil (rpcRequestSize h) = sizes /\
  notNil (rpcResponseSize h) = sizes /\
  (forall ctx rs now w w' u,
     handler w = h -> HandleRPC ctx rs now w = Return (u, w') -> handler w' = h) /\
  (forall ctx m w ctx' w',
     handler w = h -> TagRPC ctx m w = Return (ctx', w') -> handler w' = h) /\
  (forall ctx l r n now w,
     handler w = h -> getRPCInfo ctx = Some l -> records w !! l = Some r ->
     (exists wIn,
        exec (HandleRPC ctx (InPayload n) now) w = Return wIn /\
        records wIn !! l =
          Some (mkRpcInfo (fullMethodName r) (sentMsgs r) (sentBytes r)
                  (Int64.add (recvMsgs r) 1)
                  (if sizes then Int64.add (recvBytes r) (Int64.wrap64 n)
                   else recvBytes r))) /\
     (exists wOut,
        exec (HandleRPC ctx (OutPayload n) now) w = Return wOut /\
        records wOut !! l =
          Some (mkRpcInfo (fullMethodName r)
                  (Int64.add (sentMsgs r) 1)
                  (if sizes then Int64.add (sentBytes r) (Int64.wrap64 n)
                   else sentBytes r)
                  (recvMsgs r) (recvBytes r))) /\
     (forall bt err,
        exists wEnd,
          exec (HandleRPC ctx (End bt err) now) w = Return wEnd /\
          let attrs := getAttributes (fullMethodName r) err in
          recorded wEnd =
            recorded w
            ++ [ mkMeasurement (requestsPerRPC true)
                   (Int64 (sentMsgs r)) attrs;
                 mkMeasurement (responsesPerRPC true)
                   (Int64 (recvMsgs r)) attrs ]
            ++ measure (rpcDuration h)
                 (Float64OfInt64 (Milliseconds (Since now bt))) attrs
            ++ (if sizes then
                  [ mkMeasurement (requestSize true) (Int64 (sentBytes r)) attrs;
                    mkMeasurement (responseSize true) (Int64 (recvBytes r)) attrs ]
                else []))).
Proof.
  apply (sizes_provisioned_together acceptAll true [WithInstrumentSizes true] []
           (accepted (planned true (mkConfig None "" true false)))).
  reflexivity.
Defined.

(** The cases of [TestNewHandler]: the defaults, and every option set. *)
Example newHandler_defaults :
  snd (newHandler acceptAll false [] []) =
  inl (mkHandler false None None None
         (Some (requestsPerRPC false)) (Some (responsesPerRPC false))).
Proof. reflexivity. Qed.

Example newHandler_with_configs :
  snd (newHandler acceptAll true
         [ WithInstrumentLatency true; WithInstrumentationName "my_name";
           WithInstrumentSizes true; WithMeterProvider (Some acceptAll) ] []) =
  inl (mkHandler true (Some (duration true))
         (Some (requestSize true)) (Some (responseSize true))
         (Some (requestsPerRPC true)) (Some (responsesPerRPC true))).
Proof. reflexivity. Qed.

(** A meter that rejects the duration histogram: construction stops
    there, with that error, and the size histograms are never asked for. *)
Example newHandler_rejected :
  newHandler (rejectName "rpc.server.duration" (status.OpaqueError "duplicate"))
    false [WithInstrumentLatency true; WithInstrumentSizes true] [] =
  ( [ (requestsPerRPC false, None);
      (responsesPerRPC false, None);
      (duration false, Some (status.OpaqueError "duplicate")) ],
    inr (status.OpaqueError "duplicate") ).
Proof. reflexivity. Qed.

(** * Further properties *)

(** ** Context propagation *)

Lemma getRPCInfo_deriveAll kvs : forall ctx,
  getRPCInfo (deriveAll ctx kvs) = getRPCInfo ctx.
Proof.
  induction kvs as [|[k v] rest IH]; intros ctx; [reflexivity|].
  simpl. rewrite IH. reflexivity.
Qed.

(** X1: the record attached by [setRPCInfo] is the one [getRPCInfo]
    finds, whatever the parent context carried before (an older record
    is shadowed) and through any number of derivations with the keys of
    other packages. *)
Theorem getRPCInfo_roundtrip ctx ri kvs :
  getRPCInfo (deriveAll (setRPCInfo ctx ri) kvs) = Some ri.
Proof. rewrite getRPCInfo_deriveAll. reflexivity. Qed.

(** X2: a context made from [context.Background()] with the keys of other
    packages only carries no record, and a whole run of events of any
    kinds delivered with it returns and leaves the world as it was,
    whatever the handler is. *)
Theorem untagged_run_is_noop kvs evs w :
  getRPCInfo (deriveAll Background kvs) = None /\
  handleAll (deriveAll Background kvs) evs w = Return (tt, w).
Proof.
  assert (H : getRPCInfo (deriveAll Background kvs) = None)
    by now rewrite getRPCInfo_deriveAll.
  split; [exact H|].
  induction evs as [|[rs now] rest IH]; [reflexivity|].
  cbn [handleAll]. unfold bind. rewrite HandleRPC_no_record by exact H. exact IH.
Qed.

(** ** TagRPC *)

(** X3: [TagRPC] returns, with a context that carries a record no context
    could reach before: its address was not in the store.  The record
    has the method name and every counter at zero; every record that was
    in the store is still there with the same contents; no measurement
    and no diagnostic is made. *)
Theorem TagRPC_allocates ctx m w :
  exists l w',
    TagRPC ctx m w = Return (setRPCInfo ctx l, w') /\
    getRPCInfo (setRPCInfo ctx l) = Some l /\
    records w !! l = None /\
    records w' !! l = Some (mkRpcInfo m 0 0 0 0) /\
    (forall l' r', records w !! l' = Some r' -> l' <> l /\ records w' !! l' = Some r') /\
    dom (records w') = {[ l ]} ∪ dom (records w) /\
    recorded w' = recorded w /\ handled w' = handled w /\ handler w' = handler w.
Proof.
  set (l := fresh (dom (records w))).
  assert (Hl : records w !! l = None) by (apply not_elem_of_dom, is_fresh).
  exists l. eexists. split; [reflexivity|]. cbn [records recorded handled handler].
  split; [reflexivity|]. split; [exact Hl|].
  split; [apply lookup_insert_eq|].
  split; [|split; [apply dom_insert_L | auto]].
  intros l' r' Hr'.
  assert (Hne : l' <> l) by (intros E; rewrite E, Hl in Hr'; discriminate).
  split; [assumption|]. rewrite lookup_insert_ne by (intros E; now apply Hne). exact Hr'.
Qed.

(** X4: two calls of [TagRPC], as for two attempts of one call made from
    the same parent context, give two different records, and the second
    leaves the first one as the first call made it. *)
Theorem TagRPC_twice_distinct ctx m1 m2 w :
  exists l1 l2 w2,
    exec (c1 <- TagRPC ctx m1 ;; c2 <- TagRPC ctx m2 ;; ret (c1, c2)) w = Return w2 /\
    (c1 <- TagRPC ctx m1 ;; c2 <- TagRPC ctx m2 ;; ret (c1, c2)) w =
      Return ((setRPCInfo ctx l1, setRPCInfo ctx l2), w2) /\
    l1 <> l2 /\
    records w2 !! l1 = Some (mkRpcInfo m1 0 0 0 0) /\
    records w2 !! l2 = Some (mkRpcInfo m2 0 0 0 0).
Proof.
  destruct (TagRPC_fresh ctx m1 w) as (l1 & w1 & H1 & Hn1 & Hr1 & _).
  destruct (TagRPC_fresh ctx m2 w1) as (l2 & w2 & H2 & Hn2 & Hr2 & _).
  exists l1, l2, w2. unfold exec, bind. rewrite H1, H2. unfold ret.
  assert (Hne : l1 <> l2).
  { intros ->. rewrite Hr1, lookup_insert_eq in Hn2. discriminate. }
  repeat split; try assumption.
  - rewrite Hr2, lookup_insert_ne, Hr1 by congruence. apply lookup_insert_eq.
  - rewrite Hr2. apply lookup_insert_eq.
Qed.

(** ** One callback and the rest of the world *)

(** X5: a call of [HandleRPC] that returns has changed no record but the
    one its context carries, and has neither added a record to the store
    nor removed one. *)
Theorem HandleRPC_frame ctx rs now w w' u l :
  HandleRPC ctx rs now w = Return (u, w') ->
  getRPCInfo ctx = Some l ->
  (forall l', l' <> l -> records w' !! l' = records w !! l') /\
  dom (records w') = dom (records w).
Proof.
  intros H Hctx.
  assert (Hins : forall r r', records w !! l = Some r ->
            (forall l', l' <> l -> <[l := r']> (records w) !! l' = records w !! l') /\
            dom (<[l := r']> (records w)) = dom (records w)).
  { intros r r' Hr. split.
    - intros l' Hne. apply lookup_insert_ne. congruence.
    - rewrite dom_insert_L. apply elem_of_dom_2 in Hr.
      apply subseteq_union_1_L, singleton_subseteq_l, Hr. }
  destruct rs;
    try (rewrite HandleRPC_ignored in H by reflexivity; injection H as _ <-; now split).
  - destruct (records w !! l) as [r|] eqn:Hr.
    + rewrite (HandleRPC_InPayload ctx l r) in H by assumption.
      injection H as _ <-. cbn [records]. now apply (Hins r).
    + unfold HandleRPC in H. rewrite Hctx in H.
      unfold bind, AddInt64 in H. rewrite Hr in H. discriminate.
  - destruct (records w !! l) as [r|] eqn:Hr.
    + rewrite (HandleRPC_OutPayload ctx l r) in H by assumption.
      injection H as _ <-. cbn [records]. now apply (Hins r).
    + unfold HandleRPC in H. rewrite Hctx in H.
      unfold bind, AddInt64 in H. rewrite Hr in H. discriminate.
  - destruct (records w !! l) as [r|] eqn:Hr.
    2:{ unfold HandleRPC in H. rewrite Hctx in H.
        unfold bind, loadName in H. rewrite Hr in H. discriminate. }
    destruct (rpcRequestsPerRPC (handler w)) as [ireq|] eqn:Hreq.
    2:{ rewrite (HandleRPC_End_nil_counter ctx l r) in H by assumption. discriminate. }
    destruct (rpcResponsesPerRPC (handler w)) as [iresp|] eqn:Hresp.
    + rewrite (HandleRPC_End ctx l r BeginTime Err now w ireq iresp) in H by assumption.
      injection H as _ <-. now split.
    + exfalso. revert H. unfold HandleRPC. rewrite Hctx.
      destruct w as [[cl d rq rs rqc rsc] recs ms hd]. simpl in *. subst.
      unfold bind, loadName, self, LoadInt64, submit, when, ret. simpl.
      rewrite Hr. destruct cl; simpl; rewrite Hr; simpl; rewrite ?Hr; discriminate.
  - rewrite (HandleRPC_OtherStats ctx l) in H by assumption.
    injection H as _ <-. now split.
Qed.

Lemma HandleRPC_frame_witness :
  (forall l', l' <> 0%nat ->
     records (mkWorld (handler serverWorld)
                (<[0%nat := afterInPayload (handler serverWorld) 4 streamRecord]>
                   (records serverWorld)) [] []) !! l'
     = records serverWorld !! l') /\
  dom (records (mkWorld (handler serverWorld)
                  (<[0%nat := afterInPayload (handler serverWorld) 4 streamRecord]>
                     (records serverWorld)) [] []))
  = dom (records serverWorld).
Proof.
  apply (HandleRPC_frame ctx0 (InPayload 4) 7 serverWorld _ tt 0%nat);
    reflexivity.
Defined.

(** What a returning call does, case by case: the world it leaves. *)
Lemma HandleRPC_returns_inv ctx rs now w w' u :
  HandleRPC ctx rs now w = Return (u, w') ->
  handler w' = handler w /\
  handled w' = handled w ++ diagnosticOf ctx rs /\
  (isEnd rs = false -> recorded w' = recorded w) /\
  (forall l, getRPCInfo ctx = Some l -> isEnd rs = true ->
     exists r ireq iresp bt err,
       rs = End bt err /\ records w !! l = Some r /\
       rpcRequestsPerRPC (handler w) = Some ireq /\
       rpcResponsesPerRPC (handler w) = Some iresp /\
       records w' = records w /\
       recorded w' =
         recorded w ++ endMeasurements (handler w) ireq iresp r (Since now bt) err).
Proof.
  intros H. unfold diagnosticOf.
  destruct (getRPCInfo ctx) as [l|] eqn:Hctx.
  2:{ rewrite HandleRPC_no_record in H by assumption. injection H as _ <-.
      rewrite app_nil_r. repeat split. intros l [=]. }
  destruct rs;
    try (rewrite HandleRPC_ignored in H by reflexivity; injection H as _ <-;
         rewrite app_nil_r; repeat split; intros ? _ [=]).
  - destruct (records w !! l) as [r|] eqn:Hr.
    + rewrite (HandleRPC_InPayload ctx l r) in H by assumption.
      injection H as _ <-. cbn. rewrite app_nil_r. repeat split. intros ? _ [=].
    + unfold HandleRPC in H. rewrite Hctx in H.
      unfold bind, AddInt64 in H. rewrite Hr in H. discriminate.
  - destruct (records w !! l) as [r|] eqn:Hr.
    + rewrite (HandleRPC_OutPayload ctx l r) in H by assumption.
      injection H as _ <-. cbn. rewrite app_nil_r. repeat split. intros ? _ [=].
    + unfold HandleRPC in H. rewrite Hctx in H.
      unfold bind, AddInt64 in H. rewrite Hr in H. discriminate.
  - destruct (records w !! l) as [r|] eqn:Hr.
    2:{ unfold HandleRPC in H. rewrite Hctx in H.
        unfold bind, loadName in H. rewrite Hr in H. discriminate. }
    destruct (rpcRequestsPerRPC (handler w)) as [ireq|] eqn:Hreq.
    2:{ rewrite (HandleRPC_End_nil_counter ctx l r) in H by assumption. discriminate. }
    destruct (rpcResponsesPerRPC (handler w)) as [iresp|] eqn:Hresp.
    + rewrite (HandleRPC_End ctx l r BeginTime Err now w ireq iresp) in H by assumption.
      injection H as _ <-. cbn. rewrite app_nil_r.
      split; [reflexivity|]. split; [reflexivity|]. split; [discriminate|].
      intros l0 [= <-] _. exists r, ireq, iresp, BeginTime, Err.
      repeat split; assumption.
    + exfalso. revert H. unfold HandleRPC. rewrite Hctx.
      destruct w as [[cl d rq rs rqc rsc] recs ms hd]. simpl in *. subst.
      unfold bind, loadName, self, LoadInt64, submit, when, ret. simpl.
      rewrite Hr. destruct cl; simpl; rewrite Hr; simpl; rewrite ?Hr; discriminate.
  - rewrite (HandleRPC_OtherStats ctx l) in H by assumption.
    injection H as _ <-. cbn. repeat split. intros ? _ [=].
Qed.

(** X6: only the terminal event gives measurements to the backend: a call
    of [HandleRPC] with an event of any other kind, when it returns,
    leaves the measurements as they were. *)
Theorem only_End_submits ctx rs now w w' u :
  isEnd rs = false ->
  HandleRPC ctx rs now w = Return (u, w') ->
  recorded w' = recorded w.
Proof. intros Hrs H. now apply (HandleRPC_returns_inv ctx rs now w w' u H). Qed.

Lemma only_End_submits_witness :
  recorded (mkWorld (handler serverWorld)
              (<[0%nat := afterOutPayload (handler serverWorld) 2 streamRecord]>
                 (records serverWorld)) [] [])
  = recorded serverWorld.
Proof.
  apply (only_End_submits ctx0 (OutPayload 2) 7 serverWorld _ tt); reflexivity.
Defined.

(** X7: [otel.Handle] is called for an event of an unrecognized kind that
    arrives with a record, once and with the type and the data of the
    event in the text, and for nothing else: a call that returns has
    added that one text to the diagnostics, or none. *)
Theorem HandleRPC_diagnostics ctx rs now w w' u :
  HandleRPC ctx rs now w = Return (u, w') ->
  handled w' =
    handled w
    ++ match getRPCInfo ctx, rs with
       | Some _, OtherStats ty data =>
           ["received unhandled stats with type (" ++ ty ++ ") and data: " ++ data]%string
       | _, _ => []
       end.
Proof. intros H. now apply (HandleRPC_returns_inv ctx rs now w w' u H). Qed.

Lemma HandleRPC_diagnostics_witness :
  handled (mkWorld (handler serverWorld) (records serverWorld) (recorded serverWorld)
             (handled serverWorld ++ [unhandledMessage "*stats.PickerUpdated" "&{}"]))
  = handled serverWorld
    ++ ["received unhandled stats with type (" ++ "*stats.PickerUpdated"
        ++ ") and data: " ++ "&{}"]%string.
Proof.
  apply (HandleRPC_diagnostics ctx0 (OtherStats "*stats.PickerUpdated" "&{}") 7
           serverWorld _ tt).
  reflexivity.
Defined.

(** X8: the terminal event, on a handler with its two counters, makes
    two counter measurements and one measurement for each histogram the
    handler holds, in the order requests, responses, duration, request
    size, response size, and every one of them carries the same derived
    attributes. *)
Theorem End_measurements_shape ctx l r bt err now w ireq iresp :
  getRPCInfo ctx = Some l -> records w !! l = Some r ->
  rpcRequestsPerRPC (handler w) = Some ireq ->
  rpcResponsesPerRPC (handler w) = Some iresp ->
  exists w' new,
    HandleRPC ctx (End bt err) now w = Return (tt, w') /\
    recorded w' = recorded w ++ new /\
    map instr new = [ireq; iresp] ++ histograms (handler w) /\
    List.length new = (2 + List.length (histograms (handler w)))%nat /\
    Forall (fun m => attrs m = getAttributes (fullMethodName r) err) new.
Proof.
  intros Hctx Hr Hreq Hresp.
  rewrite (HandleRPC_End ctx l r bt err now w ireq iresp) by assumption.
  do 2 eexists. split; [reflexivity|]. cbn [recorded]. split; [reflexivity|].
  unfold histogramMeasurements, histograms, measure.
  destruct (rpcDuration (handler w)), (rpcRequestSize (handler w)),
    (rpcResponseSize (handler w)); simpl;
    (split; [reflexivity|]; split; [reflexivity|]; repeat constructor).
Qed.

Lemma End_measurements_shape_witness :
  exists w' new,
    HandleRPC ctx0 (End 0 None) 7 serverWorld = Return (tt, w') /\
    recorded w' = recorded serverWorld ++ new /\
    map instr new =
      [requestsPerRPC false; responsesPerRPC false] ++ histograms (handler serverWorld) /\
    List.length new = (2 + List.length (histograms (handler serverWorld)))%nat /\
    Forall (fun m => attrs m = getAttributes (fullMethodName streamRecord) None) new.
Proof.
  apply (End_measurements_shape ctx0 0%nat streamRecord 0 None 7 serverWorld
           (requestsPerRPC false) (responsesPerRPC false));
    reflexivity.
Defined.

(** X9: the terminal event neither removes the record nor marks the
    attempt as finished: a second terminal event with the same context
    reports the same record again. *)
Theorem End_twice_reports_twice ctx l r bt1 err1 now1 bt2 err2 now2 w ireq iresp :
  getRPCInfo ctx = Some l -> records w !! l = Some r ->
  rpcRequestsPerRPC (handler w) = Some ireq ->
  rpcResponsesPerRPC (handler w) = Some iresp ->
  exists w',
    exec (HandleRPC ctx (End bt1 err1) now1 ;;; HandleRPC ctx (End bt2 err2) now2) w
      = Return w' /\
    records w' = records w /\
    recorded w' =
      recorded w
      ++ endMeasurements (handler w) ireq iresp r (Since now1 bt1) err1
      ++ endMeasurements (handler w) ireq iresp r (Since now2 bt2) err2.
Proof.
  intros Hctx Hr Hreq Hresp. unfold exec, bind.
  rewrite (HandleRPC_End ctx l r bt1 err1 now1 w ireq iresp) by assumption.
  rewrite (HandleRPC_End ctx l r bt2 err2 now2 _ ireq iresp) by assumption.
  eexists. split; [reflexivity|]. cbn. split; [reflexivity|].
  unfold endMeasurements. rewrite <- !app_assoc. reflexivity.
Qed.

Lemma End_twice_reports_twice_witness :
  exists w',
    exec (HandleRPC ctx0 (End 0 None) 7 ;;; HandleRPC ctx0 (End 0 (Some notFoundError)) 9)
      clientWorld = Return w' /\
    records w' = records clientWorld /\
    recorded w' =
      recorded clientWorld
      ++ endMeasurements (handler clientWorld) (requestsPerRPC true) (responsesPerRPC true)
           streamRecord (Since 7 0) None
      ++ endMeasurements (handler clientWorld) (requestsPerRPC true) (responsesPerRPC true)
           streamRecord (Since 9 0) (Some notFoundError).
Proof.
  apply (End_twice_reports_twice ctx0 0%nat streamRecord 0 None 7 0 (Some notFoundError) 9
           clientWorld (requestsPerRPC true) (responsesPerRPC true));
    reflexivity.
Defined.

(** X10: with a record attached, the terminal event panics exactly when
    one of the two counters of the handler is nil, as both are in a zero
    [Handler] value: [Add] is called on them without a nil check, while
    the histograms are checked. *)
Theorem End_panics_iff_nil_counter ctx l r bt err now w :
  getRPCInfo ctx = Some l -> records w !! l = Some r ->
  (HandleRPC ctx (End bt err) now w = Panic <->
   rpcRequestsPerRPC (handler w) = None \/ rpcResponsesPerRPC (handler w) = None).
Proof.
  intros Hctx Hr.
  destruct (rpcRequestsPerRPC (handler w)) as [ireq|] eqn:Hreq.
  - destruct (rpcResponsesPerRPC (handler w)) as [iresp|] eqn:Hresp.
    + rewrite (HandleRPC_End ctx l r bt err now w ireq iresp) by assumption.
      split; [discriminate | intros [H|H]; discriminate].
    + split; [auto|]. intros _. unfold HandleRPC. rewrite Hctx.
      destruct w as [[cl d rq rs rqc rsc] recs ms hd]. simpl in *. subst.
      unfold bind, loadName, self, LoadInt64, submit, when, ret. simpl.
      rewrite Hr. destruct cl; simpl; rewrite Hr; simpl; rewrite ?Hr; reflexivity.
  - split; [auto|]. intros _. now apply (HandleRPC_End_nil_counter ctx l r).
Qed.

Lemma End_panics_iff_nil_counter_witness :
  HandleRPC ctx0 (End 0 None) 7 zeroHandlerWorld = Panic <->
  rpcRequestsPerRPC (handler zeroHandlerWorld) = None \/
  rpcResponsesPerRPC (handler zeroHandlerWorld) = None.
Proof.
  apply (End_panics_iff_nil_counter ctx0 0%nat streamRecord 0 None 7 zeroHandlerWorld);
    reflexivity.
Defined.

(** ** Runs of events *)

(** On a handler with its two counters, a call with a context whose
    record, if any, is in the store returns, and the context stays so. *)
Lemma HandleRPC_returns ctx rs now w ireq iresp :
  rpcRequestsPerRPC (handler w) = Some ireq ->
  rpcResponsesPerRPC (handler w) = Some iresp ->
  validIn w ctx ->
  exists w', HandleRPC ctx rs now w = Return (tt, w') /\
             handler w' = handler w /\ validIn w' ctx.
Proof.
  intros Hreq Hresp Hv. unfold validIn in *.
  destruct (getRPCInfo ctx) as [l|] eqn:Hctx.
  2:{ exists w. rewrite HandleRPC_no_record by assumption. auto. }
  destruct Hv as [r Hr].
  destruct rs;
    try (exists w; rewrite HandleRPC_ignored by reflexivity; eauto).
  - eexists. rewrite (HandleRPC_InPayload ctx l r) by assumption.
    split; [reflexivity|]. cbn. split; [reflexivity|].
    rewrite lookup_insert_eq. eauto.
  - eexists. rewrite (HandleRPC_OutPayload ctx l r) by assumption.
    split; [reflexivity|]. cbn. split; [reflexivity|].
    rewrite lookup_insert_eq. eauto.
  - eexists. rewrite (HandleRPC_End ctx l r _ _ now w ireq iresp) by assumption.
    split; [reflexivity|]. cbn. eauto.
  - eexists. rewrite (HandleRPC_OtherStats ctx l) by assumption.
    split; [reflexivity|]. cbn. eauto.
Qed.

Lemma newHandler_counters g ic options log log' h :
  newHandler g ic options log = (log', inl h) ->
  isClient h = ic /\
  rpcRequestsPerRPC h = Some (requestsPerRPC ic) /\
  rpcResponsesPerRPC h = Some (responsesPerRPC ic) /\
  h = provisioned ic (applyAll options zeroConfig).
Proof.
  intros Hnew. rewrite newHandler_askAll in Hnew.
  destruct (askAll _ _ log) as [log'' [e|]]; [discriminate|].
  injection Hnew as _ <-. repeat split.
Qed.

(** X11: a handler that construction returned never panics: a run of
    events of any kinds and in any order, delivered with a context whose
    record (if it carries one) is in the store, returns, with the same
    handler, and the context can be used again. *)
Theorem constructed_handler_never_panics g ic options log log' h ctx evs w :
  newHandler g ic options log = (log', inl h) ->
  handler w = h -> validIn w ctx ->
  exists w',
    handleAll ctx evs w = Return (tt, w') /\ handler w' = h /\ validIn w' ctx.
Proof.
  intros Hnew Hh Hv.
  destruct (newHandler_counters g ic options log log' h Hnew) as (_ & Hreq & Hresp & _).
  revert w Hh Hv. induction evs as [|[rs now] rest IH]; intros w Hh Hv.
  - exists w. auto.
  - cbn [handleAll]. unfold bind.
    destruct (HandleRPC_returns ctx rs now w (requestsPerRPC ic) (responsesPerRPC ic))
      as (w1 & H1 & Hh1 & Hv1); try (rewrite Hh; assumption); try assumption.
    rewrite H1. apply IH; [congruence | assumption].
Qed.

Lemma constructed_handler_never_panics_witness :
  exists w',
    handleAll ctx0
      [ (End 0 None, 1); (OtherStats "T" "v", 2); (InPayload 3, 3); (End 0 None, 4) ]
      serverWorld = Return (tt, w') /\
    handler w' = provisioned false allOn /\ validIn w' ctx0.
Proof.
  apply (constructed_handler_never_panics acceptAll false
           [WithInstrumentLatency true; WithInstrumentSizes true] []
           (accepted (planned false allOn)) (provisioned false allOn) ctx0 _ serverWorld).
  - reflexivity.
  - reflexivity.
  - unfold validIn. simpl. exists streamRecord. reflexivity.
Defined.

Lemma afterInPayload_comm h n1 n2 r :
  afterInPayload h n1 (afterInPayload h n2 r) = afterInPayload h n2 (afterInPayload h n1 r).
Proof.
  unfold afterInPayload, Int64.add. simpl. f_equal.
  destruct (notNil (rpcRequestSize h)); [|reflexivity].
  rewrite !wrap64_add_l. f_equal. lia.
Qed.

Lemma afterOutPayload_comm h n1 n2 r :
  afterOutPayload h n1 (afterOutPayload h n2 r) = afterOutPayload h n2 (afterOutPayload h n1 r).
Proof.
  unfold afterOutPayload, Int64.add. simpl. f_equal.
  destruct (notNil (rpcResponseSize h)); [|reflexivity].
  rewrite !wrap64_add_l. f_equal. lia.
Qed.

Lemma recordAfter_swap h e1 e2 evs r :
  recordAfter h (e1 :: e2 :: evs) r = recordAfter h (e2 :: e1 :: evs) r.
Proof.
  destruct e1 as [[] t1], e2 as [[] t2]; cbn [recordAfter]; try reflexivity.
  - now rewrite afterInPayload_comm.
  - now rewrite afterOutPayload_comm.
Qed.

Lemma recordAfter_Permutation h evs evs' :
  Permutation evs evs' -> forall r, recordAfter h evs r = recordAfter h evs' r.
Proof.
  induction 1 as [|e l l' _ IH|e1 e2 l|l l' l'' _ IH1 _ IH2]; intros r.
  - reflexivity.
  - destruct e as [[] t]; cbn [recordAfter]; apply IH.
  - apply recordAfter_swap.
  - now rewrite IH1.
Qed.

Lemma counting_noEnd evs : forallb counting evs = true -> noEnd evs = true.
Proof.
  induction evs as [|[[] t] rest IH]; simpl; intros H; try discriminate; auto.
Qed.

Lemma counting_diagnostics evs : forallb counting evs = true -> diagnostics evs = [].
Proof.
  induction evs as [|[[] t] rest IH]; simpl; intros H; try discriminate; auto.
Qed.

Lemma counting_Permutation evs evs' :
  Permutation evs evs' -> forallb counting evs = true -> forallb counting evs' = true.
Proof.
  intros HP H. apply forallb_forall. intros x Hx.
  rewrite forallb_forall in H. apply H.
  apply Permutation_sym in HP. eapply Permutation_in; eassumption.
Qed.

(** X12: the order in which the payload, header, trailer and begin events
    of an attempt arrive does not matter: two runs of the same events in
    different orders both return and leave the same world, the record
    included.  This is what lets the atomic additions of concurrent
    callbacks be taken in any order. *)
Theorem payload_order_irrelevant ctx l r evs evs' w :
  Permutation evs evs' ->
  forallb counting evs = true ->
  getRPCInfo ctx = Some l -> records w !! l = Some r ->
  exists w',
    handleAll ctx evs w = Return (tt, w') /\
    handleAll ctx evs' w = Return (tt, w') /\
    records w' !! l = Some (recordAfter (handler w) evs r).
Proof.
  intros HP Hc Hctx Hr.
  pose proof (counting_Permutation evs evs' HP Hc) as Hc'.
  rewrite (handleAll_body evs ctx l r w (counting_noEnd _ Hc) Hctx Hr).
  rewrite (handleAll_body evs' ctx l r w (counting_noEnd _ Hc') Hctx Hr).
  rewrite !counting_diagnostics by assumption.
  rewrite (recordAfter_Permutation _ _ _ HP r).
  eexists. split; [reflexivity|]. split; [reflexivity|].
  cbn. apply lookup_insert_eq.
Qed.

Lemma payload_order_irrelevant_witness :
  exists w',
    handleAll ctx0 [ (InPayload 4, 1); (OutPayload 6, 2); (OutHeader, 3) ] serverWorld
      = Return (tt, w') /\
    handleAll ctx0 [ (OutPayload 6, 2); (InPayload 4, 1); (OutHeader, 3) ] serverWorld
      = Return (tt, w') /\
    records w' !! 0%nat =
      Some (recordAfter (handler serverWorld)
              [ (InPayload 4, 1); (OutPayload 6, 2); (OutHeader, 3) ] streamRecord).
Proof.
  apply (payload_order_irrelevant ctx0 0%nat streamRecord
           [ (InPayload 4, 1); (OutPayload 6, 2); (OutHeader, 3) ]
           [ (OutPayload 6, 2); (InPayload 4, 1); (OutHeader, 3) ] serverWorld).
  - apply perm_swap.
  - reflexivity.
  - reflexivity.
  - reflexivity.
Defined.

(** ** Whole attempts *)

Lemma attempt_reports_payload_counts_witness :
  exists w' tail,
    exec (attempt Background "/testserver.TestsService/Ok"
            [ (InHeader, 0); (Begin, 0); (InPayload 0, 1); (OutHeader, 2);
              (OutPayload 2, 3); (OutTrailer, 4) ]
            0 None 5) serverWorld = Return w' /\
    let attrs := getAttributes "/testserver.TestsService/Ok" None in
    recorded w' =
      recorded serverWorld
      ++ mkMeasurement (requestsPerRPC false)
           (Int64 (if isClient (handler serverWorld)
                   then outPayloads [ (InHeader, 0); (Begin, 0); (InPayload 0, 1);
                                      (OutHeader, 2); (OutPayload 2, 3); (OutTrailer, 4) ]
                   else inPayloads [ (InHeader, 0); (Begin, 0); (InPayload 0, 1);
                                     (OutHeader, 2); (OutPayload 2, 3); (OutTrailer, 4) ]))
           attrs
      :: mkMeasurement (responsesPerRPC false)
           (Int64 (if isClient (handler serverWorld)
                   then inPayloads [ (InHeader, 0); (Begin, 0); (InPayload 0, 1);
                                     (OutHeader, 2); (OutPayload 2, 3); (OutTrailer, 4) ]
                   else outPayloads [ (InHeader, 0); (Begin, 0); (InPayload 0, 1);
                                      (OutHeader, 2); (OutPayload 2, 3); (OutTrailer, 4) ]))
           attrs
      :: tail.
Proof.
  apply (attempt_reports_payload_counts Background "/testserver.TestsService/Ok"
           [ (InHeader, 0); (Begin, 0); (InPayload 0, 1); (OutHeader, 2);
             (OutPayload 2, 3); (OutTrailer, 4) ]
           0 None 5 serverWorld (requestsPerRPC false) (responsesPerRPC false));
    try reflexivity; vm_compute; discriminate.
Defined.

(** X14: one attempt on a handler with both size histograms, from
    [TagRPC] to the terminal event: the sizes recorded are the sums of
    the lengths of the payloads of the attempt (as [int64]), the
    outbound ones as request size on a client and as response size on a
    server, the inbound ones the other way round. *)
Theorem attempt_reports_payload_bytes ctx m evs bt err now w ireq iresp isz osz :
  noEnd evs = true ->
  rpcRequestsPerRPC (handler w) = Some ireq ->
  rpcResponsesPerRPC (handler w) = Some iresp ->
  rpcRequestSize (handler w) = Some isz ->
  rpcResponseSize (handler w) = Some osz ->
  exists w' before,
    exec (attempt ctx m evs bt err now) w = Return w' /\
    let attrs := getAttributes m err in
    recorded w' =
      recorded w ++ before
      ++ [ mkMeasurement isz
             (Int64 (Int64.wrap64 (if isClient (handler w) then outBytes evs
                                   else inBytes evs))) attrs;
           mkMeasurement osz
             (Int64 (Int64.wrap64 (if isClient (handler w) then inBytes evs
                                   else outBytes evs))) attrs ].
Proof.
  intros Hne Hreq Hresp Hisz Hosz.
  destruct (TagRPC_fresh ctx m w) as (l & w1 & Htag & Hnone & Hrecs & Hh & Hrec & Hhd).
  unfold exec, attempt, bind. rewrite Htag.
  assert (Hl : records w1 !! l = Some (mkRpcInfo m 0 0 0 0)).
  { rewrite Hrecs. apply lookup_insert_eq. }
  rewrite (handleAll_body evs (setRPCInfo ctx l) l _ w1 Hne eq_refl Hl).
  set (r := recordAfter (handler w1) evs (mkRpcInfo m 0 0 0 0)).
  rewrite (HandleRPC_End (setRPCInfo ctx l) l r bt err now _ ireq iresp);
    try reflexivity; cbn; try (rewrite Hh; assumption); try apply lookup_insert_eq.
  destruct (recordAfter_counts (handler w1) evs (mkRpcInfo m 0 0 0 0))
    as (E0 & _ & _ & E3 & E4).
  { unfold recordInRange. simpl.
    assert (H0 : Int64.in_range 0) by (split; vm_compute; discriminate).
    auto. }
  fold r in E0, E3, E4. rewrite Hh, Hisz in E3. rewrite Hh, Hosz in E4.
  simpl in E0, E3, E4.
  unfold histogramMeasurements. rewrite Hh, Hrec, Hisz, Hosz, E0, E3, E4. simpl.
  eexists.
  exists ([ mkMeasurement ireq
              (Int64 (if isClient (handler w) then sentMsgs r else recvMsgs r))
              (getAttributes m err);
            mkMeasurement iresp
              (Int64 (if isClient (handler w) then recvMsgs r else sentMsgs r))
              (getAttributes m err) ]
          ++ measure (rpcDuration (handler w))
               (Float64OfInt64 (Milliseconds (Since now bt))) (getAttributes m err)).
  split; [reflexivity|]. cbn.
  destruct (isClient (handler w)); reflexivity.
Qed.

Lemma attempt_reports_payload_bytes_witness :
  exists w' before,
    exec (attempt Background "/testserver.TestsService/Ok"
            [ (InPayload 0, 1); (OutPayload 2, 3) ] 0 None 5) clientWorld = Return w' /\
    let attrs := getAttributes "/testserver.TestsService/Ok" None in
    recorded w' =
      recorded clientWorld ++ before
      ++ [ mkMeasurement (requestSize true)
             (Int64 (Int64.wrap64 (if isClient (handler clientWorld)
                                   then outBytes [ (InPayload 0, 1); (OutPayload 2, 3) ]
                                   else inBytes [ (InPayload 0, 1); (OutPayload 2, 3) ])))
             attrs;
           mkMeasurement (responseSize true)
             (Int64 (Int64.wrap64 (if isClient (handler clientWorld)
                                   then inBytes [ (InPayload 0, 1); (OutPayload 2, 3) ]
                                   else outBytes [ (InPayload 0, 1); (OutPayload 2, 3) ])))
             attrs ].
Proof.
  apply (attempt_reports_payload_bytes Background "/testserver.TestsService/Ok"
           [ (InPayload 0, 1); (OutPayload 2, 3) ] 0 None 5 clientWorld
           (requestsPerRPC true) (responsesPerRPC true)
           (requestSize true) (responseSize true));
    reflexivity.
Defined.

(** X15: on a handler with the duration histogram, the terminal event
    records the whole milliseconds between the begin time of the event
    and the clock: for a begin time not after the clock and a distance
    that fits a [time.Duration], the value is that distance in
    nanoseconds divided by a million, rounded down, and it is not
    negative; under a millisecond it is zero. *)
Theorem End_records_duration ctx l r bt err now w ireq iresp idur :
  getRPCInfo ctx = Some l -> records w !! l = Some r ->
  rpcRequestsPerRPC (handler w) = Some ireq ->
  rpcResponsesPerRPC (handler w) = Some iresp ->
  rpcDuration (handler w) = Some idur ->
  bt <= now -> now - bt <= Int64.max_int ->
  exists w',
    HandleRPC ctx (End bt err) now w = Return (tt, w') /\
    In (mkMeasurement idur (Float64OfInt64 ((now - bt) / 1000000))
          (getAttributes (fullMethodName r) err))
       (recorded w') /\
    0 <= (now - bt) / 1000000 /\
    (now - bt < 1000000 -> (now - bt) / 1000000 = 0).
Proof.
  intros Hctx Hr Hreq Hresp Hdur Hle Hmax.
  rewrite (HandleRPC_End ctx l r bt err now w ireq iresp) by assumption.
  eexists. split; [reflexivity|]. cbn [recorded].
  assert (Hs : Since now bt = now - bt).
  { unfold Since. cbv zeta.
    destruct (Z.ltb_spec (now - bt) Int64.min_int) as [H|_].
    - unfold Int64.min_int, Int64.half_modulus in H. lia.
    - destruct (Z.ltb_spec Int64.max_int (now - bt)); [lia | reflexivity]. }
  assert (Hm : Milliseconds (now - bt) = (now - bt) / 1000000).
  { unfold Milliseconds. apply Z.quot_div_nonneg; lia. }
  split; [|split].
  - unfold histogramMeasurements. rewrite Hdur, Hs, Hm. cbn [measure].
    apply in_or_app. right. simpl. auto.
  - apply Z.div_pos; lia.
  - intros Hlt. apply Z.div_small. lia.
Qed.

Lemma End_records_duration_witness :
  exists w',
    HandleRPC ctx0 (End 1000 None) 3500000 serverWorld = Return (tt, w') /\
    In (mkMeasurement (duration false) (Float64OfInt64 ((3500000 - 1000) / 1000000))
          (getAttributes (fullMethodName streamRecord) None))
       (recorded w') /\
    0 <= (3500000 - 1000) / 1000000 /\
    (3500000 - 1000 < 1000000 -> (3500000 - 1000) / 1000000 = 0).
Proof.
  apply (End_records_duration ctx0 0%nat streamRecord 1000 None 3500000 serverWorld
           (requestsPerRPC false) (responsesPerRPC false) (duration false));
    try reflexivity; vm_compute; discriminate.
Defined.

(** ** Attribute deriver *)

(** X16: an attribute set never has two attributes with the same key, and
    its keys are the three status keys, in that order, alone or followed
    by the service and the method keys: it has three attributes or five,
    never four. *)
Theorem getAttributes_keys m err :
  List.NoDup (map attribute.Key (getAttributes m err)) /\
  (map attribute.Key (getAttributes m err) =
     ["rpc.system"; "rpc.grpc.status_code"; "rpc.grpc.status"]%string \/
   map attribute.Key (getAttributes m err) =
     ["rpc.system"; "rpc.grpc.status_code"; "rpc.grpc.status";
      "rpc.service"; "rpc.method"]%string).
Proof.
  rewrite getAttributes_unfold.
  assert (H3 : List.NoDup ["rpc.system"; "rpc.grpc.status_code"; "rpc.grpc.status"]%string).
  { repeat (apply List.NoDup_cons; [simpl; intuition discriminate|]).
    apply List.NoDup_nil. }
  assert (H5 : List.NoDup ["rpc.system"; "rpc.grpc.status_code"; "rpc.grpc.status";
                           "rpc.service"; "rpc.method"]%string).
  { repeat (apply List.NoDup_cons; [simpl; intuition discriminate|]).
    apply List.NoDup_nil. }
  destruct (strings.Count m =? 2)%nat; split; solve [exact H3 | exact H5 | auto].
Qed.

(** X17: the attributes depend on the error through its status code
    only: two errors with the same code, whatever their messages, derive
    the same attribute set for a method, so that the text of an error
    never becomes a label. *)
Theorem getAttributes_code_only m (e1 e2 : option error) :
  status.Code (getRPCStatus e1) = status.Code (getRPCStatus e2) ->
  getAttributes m e1 = getAttributes m e2.
Proof. intros H. rewrite !getAttributes_unfold. unfold statusAttributes. now rewrite H. Qed.

Lemma getAttributes_code_only_witness :
  getAttributes "/testserver.TestsService/Error"
    (Some (status.OpaqueError "connection reset by peer")) =
  getAttributes "/testserver.TestsService/Error"
    (status.Error codes.Internal "disk failure").
Proof.
  apply (getAttributes_code_only "/testserver.TestsService/Error"
           (Some (status.OpaqueError "connection reset by peer"))
           (status.Error codes.Internal "disk failure")).
  reflexivity.
Defined.

(** X18: in every attribute set the system is "grpc", the numeric status
    code is the code of the derived status, and the status name is the
    name of that same code; for an error that carries no status they are
    13 and "Internal", for no error 0 and "OK". *)
Theorem getAttributes_status_consistent m err :
  let attrs := getAttributes m err in
  let c := status.Code (getRPCStatus err) in
  attribute.lookup "rpc.system" attrs = Some (attribute.StringValue "grpc") /\
  attribute.lookup "rpc.grpc.status_code" attrs = Some (attribute.IntValue c) /\
  attribute.lookup "rpc.grpc.status" attrs = Some (attribute.StringValue (codes.String c)) /\
  match err with
  | None => c = 0 /\ codes.String c = "OK"
  | Some (status.OpaqueError _) => c = 13 /\ codes.String c = "Internal"
  | Some (status.StatusError s) => c = status.Code s
  end.
Proof.
  cbv zeta. rewrite getAttributes_unfold.
  destruct (strings.Count m =? 2)%nat;
    (repeat split; try reflexivity; destruct err as [[s|t]|]; repeat split).
Qed.

(** ** Options *)

Lemma option_last_wins options : forall c,
  meterProvider (applyAll options c) = providerOption options (meterProvider c) /\
  instrumentationName (applyAll options c) = nameOption options (instrumentationName c).
Proof.
  unfold applyAll. induction options as [|o rest IH]; intros c; [split; reflexivity|].
  simpl. destruct (IH (apply o c)) as [-> ->]. destruct o; split; reflexivity.
Qed.

(** X19: each option sets its own field of the configuration and no
    other, and of several options for one field the last one wins: the
    configuration after a list of options has, in each field, the value
    of the last option for that field, or the value it had when there is
    none. *)
Theorem applyAll_last_wins options c :
  applyAll options c =
    mkConfig (providerOption options (meterProvider c))
             (nameOption options (instrumentationName c))
             (sizesOption options (instrumentSizes c))
             (instrumentLatency (applyAll options c)) /\
  instrumentLatency (applyAll options c) = latencyOption options (instrumentLatency c) /\
  (forall b d, sizesOption (options ++ [WithInstrumentSizes b]) d = b) /\
  (forall b d, latencyOption (options ++ [WithInstrumentLatency b]) d = b) /\
  (forall n d, nameOption (options ++ [WithInstrumentationName n]) d = n) /\
  (forall b d, sizesOption (options ++ [WithInstrumentLatency b]) d = sizesOption options d) /\
  (forall b d, latencyOption (options ++ [WithInstrumentSizes b]) d = latencyOption options d).
Proof.
  split; [|split; [apply applyAll_latency|]].
  - destruct (option_last_wins options c) as [Hp Hn].
    rewrite <- Hp, <- Hn, <- applyAll_sizes. now destruct (applyAll options c).
  - repeat split; induction options as [|o rest IH]; intros; simpl;
      try reflexivity; destruct o; apply IH.
Qed.

(** ** Instrument provisioner *)

Lemma newHandler_depends g ic options options' log :
  meterOf g (applyAll options zeroConfig) = meterOf g (applyAll options' zeroConfig) ->
  instrumentLatency (applyAll options zeroConfig)
    = instrumentLatency (applyAll options' zeroConfig) ->
  instrumentSizes (applyAll options zeroConfig)
    = instrumentSizes (applyAll options' zeroConfig) ->
  newHandler g ic options log = newHandler g ic options' log.
Proof.
  intros Hm Hl Hs. rewrite !newHandler_askAll. cbv zeta.
  unfold planned, provisioned. rewrite Hm, Hl, Hs. reflexivity.
Qed.

Lemma applyAll_app options o c : applyAll (options ++ [o]) c = apply o (applyAll options c).
Proof. unfold applyAll. now rewrite fold_left_app. Qed.

(** X20: an empty instrumentation name and a nil meter provider fall back
    to the defaults: giving the empty name is the same as giving the
    default name, giving a nil provider the same as giving the global
    one, and giving no option the same as giving both defaults. *)
Theorem newHandler_fallbacks g ic options log :
  newHandler g ic (options ++ [WithInstrumentationName ""]) log =
    newHandler g ic (options ++ [WithInstrumentationName "github.com/mahboubii/grpcmetrics"]) log /\
  newHandler g ic (options ++ [WithMeterProvider None]) log =
    newHandler g ic (options ++ [WithMeterProvider (Some g)]) log /\
  newHandler g ic [] log =
    newHandler g ic
      [ WithMeterProvider (Some g);
        WithInstrumentationName "github.com/mahboubii/grpcmetrics" ] log.
Proof.
  repeat split; apply newHandler_depends; rewrite ?applyAll_app; reflexivity.
Qed.

Lemma planned_facts ic c :
  Forall (fun i => exists suffix,
            name i = (prefixOf ic ++ "." ++ suffix)%string /\
            unit_ i = unitOf (kind i)) (planned ic c) /\
  List.NoDup (planned ic c) /\
  (List.length (planned ic c) <= 5)%nat.
Proof.
  unfold planned, requestsPerRPC, responsesPerRPC, duration, requestSize, responseSize.
  destruct (instrumentLatency c), (instrumentSizes c), ic; simpl;
    (split; [|split]);
    first
      [ lia
      | repeat (apply List.NoDup_cons; [simpl; intuition discriminate|]);
        apply List.NoDup_nil
      | repeat (apply Forall_cons; split; [eexists; split; reflexivity|]);
        apply Forall_nil_2 ].
Qed.

(** The creations construction asks are the planned ones, in order, up
    to the end or up to the first one the meter rejects. *)
Lemma newHandler_calls g ic options log :
  let c := applyAll options zeroConfig in
  exists calls post,
    fst (newHandler g ic options log) = log ++ calls /\
    planned ic c = map fst calls ++ post /\
    match snd (newHandler g ic options log) with
    | inl h => h = provisioned ic c /\ post = [] /\ calls = accepted (planned ic c)
    | inr e =>
        exists pre r,
          calls = accepted pre ++ [(r, Some e)] /\
          meterOf g c (log ++ accepted pre) r = Some e
    end.
Proof.
  intros c. rewrite newHandler_askAll. fold c.
  destruct (askAll_calls (meterOf g c) (planned ic c) log) as (calls & Hfst & Hsnd).
  destruct (askAll (meterOf g c) (planned ic c) log) as [log' [e|]];
    cbn [fst snd] in *; subst log'.
  - destruct Hsnd as (pre & r & post & Hplan & -> & Hrej).
    exists (accepted pre ++ [(r, Some e)]), post. split; [reflexivity|]. split.
    + rewrite Hplan, map_app. unfold accepted. rewrite map_map. simpl.
      rewrite map_id, <- app_assoc. reflexivity.
    + exists pre, r. auto.
  - subst calls. exists (accepted (planned ic c)), []. split; [reflexivity|]. split.
    + unfold accepted. rewrite map_map. simpl. now rewrite map_id, app_nil_r.
    + auto.
Qed.

(** X21: every instrument construction asks for has a name that starts
    with the role, "rpc.server." on a server and "rpc.client." on a
    client, and the unit of its kind ("1" for a counter, "ms" for the
    duration, "By" for a size); no instrument is asked for twice, and at
    most five are asked for. *)
Theorem newHandler_names g ic options log :
  exists calls,
    fst (newHandler g ic options log) = log ++ calls /\
    Forall (fun call =>
              exists suffix,
                name (fst call) = ((if ic then "rpc.client" else "rpc.server")
                                   ++ "." ++ suffix)%string /\
                unit_ (fst call) = unitOf (kind (fst call))) calls /\
    List.NoDup (map fst calls) /\
    (List.length calls <= 5)%nat.
Proof.
  destruct (newHandler_calls g ic options log) as (calls & post & Hfst & Hplan & _).
  destruct (planned_facts ic (applyAll options zeroConfig)) as (HF & HN & HL).
  rewrite Hplan in HF, HN, HL.
  exists calls. split; [exact Hfst|]. split; [|split].
  - apply Forall_app in HF. destruct HF as [HF _].
    apply Forall_forall. intros call Hin.
    rewrite Forall_forall in HF. apply (HF (fst call)).
    apply list_elem_of_In, in_map, list_elem_of_In, Hin.
  - eapply List.NoDup_app_remove_r, HN.
  - rewrite List.length_app, List.length_map in HL.
    eapply Nat.le_trans; [apply Nat.le_add_r | exact HL].
Qed.

(** X22: construction stops at the first rejection: the creations asked
    are the planned ones in order, all accepted, when a handler is
    returned; when an error is returned they are planned creations that
    were accepted, followed by the rejected one, whose error is the one
    returned, and nothing is asked after it.  What the meter had
    answered before is kept, and what was created before the rejection
    stays created. *)
Theorem newHandler_stops_at_rejection g ic options log :
  let c := applyAll options zeroConfig in
  exists calls,
    fst (newHandler g ic options log) = log ++ calls /\
    match snd (newHandler g ic options log) with
    | inl h =>
        h = provisioned ic c /\
        calls = accepted (planned ic c)
    | inr e =>
        exists pre r post,
          planned ic c = pre ++ r :: post /\
          calls = accepted pre ++ [(r, Some e)] /\
          meterOf g c (log ++ accepted pre) r = Some e
    end.
Proof.
  intros c.
  destruct (newHandler_calls g ic options log) as (calls & post & Hfst & Hplan & Hres).
  fold c in Hplan, Hres. exists calls. split; [exact Hfst|].
  destruct (snd (newHandler g ic options log)) as [h|e].
  - destruct Hres as (-> & _ & ->). auto.
  - destruct Hres as (pre & r & -> & Hrej). exists pre, r, post.
    split; [|auto]. rewrite Hplan, map_app. unfold accepted. rewrite map_map. simpl.
    rewrite map_id, <- app_assoc. reflexivity.
Qed.

(** X23: the instruments of a handler that construction returned are
    pairwise different: the two counters and each histogram it holds can
    be told apart by their names, so no measurement of one can be taken
    for a measurement of another. *)
Theorem constructed_instruments_distinct g ic options log log' h :
  newHandler g ic options log = (log', inl h) ->
  List.NoDup (instruments h) /\
  List.NoDup (map name (instruments h)) /\
  instruments h = planned ic (applyAll options zeroConfig).
Proof.
  intros Hnew.
  destruct (newHandler_counters g ic options log log' h Hnew) as (_ & _ & _ & ->).
  set (c := applyAll options zeroConfig).
  assert (Hi : instruments (provisioned ic c) = planned ic c).
  { unfold instruments, histograms, provisioned, planned. simpl.
    destruct (instrumentLatency c), (instrumentSizes c); reflexivity. }
  rewrite Hi. split; [apply planned_facts|]. split; [|reflexivity].
  unfold planned, requestsPerRPC, responsesPerRPC, duration, requestSize, responseSize.
  destruct (instrumentLatency c), (instrumentSizes c), ic; simpl;
    repeat (apply List.NoDup_cons; [simpl; intuition discriminate|]);
    apply List.NoDup_nil.
Qed.

Lemma constructed_instruments_distinct_witness :
  List.NoDup (instruments (provisioned true allOn)) /\
  List.NoDup (map name (instruments (provisioned true allOn))) /\
  instruments (provisioned true allOn) =
    planned true
      (applyAll [WithInstrumentLatency true; WithInstrumentSizes true] zeroConfig).
Proof.
  apply (constructed_instruments_distinct acceptAll true
           [WithInstrumentLatency true; WithInstrumentSizes true] []
           (accepted (planned true allOn)) (provisioned true allOn)).
  reflexivity.
Defined.

(** ** The exporter of the tests *)

(** X24: [Read] gives the data of the latest [Export], also when that
    export returned the error of a cancelled context (the data is stored
    before the error is looked at); [ForceFlush] and [Shutdown] do not
    touch the stored data and return the error of their context; on an
    exporter that never exported, [Read] panics. *)
Theorem exporter_reads_latest (RM : Type)
    (calls : list (option error * RM)) (ctxErr : option error) (data : RM)
    (e : exporter RM) :
  Read RM (exportAll RM (calls ++ [(ctxErr, data)]) e) = Return data /\
  snd (Export RM ctxErr data e) = ctxErr /\
  Read RM (fst (ForceFlush RM ctxErr e)) = Read RM e /\
  Read RM (fst (Shutdown RM ctxErr e)) = Read RM e /\
  snd (ForceFlush RM ctxErr e) = ctxErr /\
  snd (Shutdown RM ctxErr e) = ctxErr /\
  Read RM (exportAll RM [] None) = Panic.
Proof.
  repeat split. revert e.
  induction calls as [|[ce d] rest IH]; intros e; [reflexivity|].
  simpl. apply IH.
Qed.

(** ** The test server *)

Lemma streamLoop_spec stream n : forall j,
  exists k,
    (j <= k <= j + n)%nat /\
    fst (streamLoop stream n (Z.of_nat j) (map Z.of_nat (seq 0 j))) = map Z.of_nat (seq 0 k) /\
    match snd (streamLoop stream n (Z.of_nat j) (map Z.of_nat (seq 0 j))) with
    | None => k = (j + n)%nat
    | Some e => (k < j + n)%nat /\ stream (map Z.of_nat (seq 0 k)) (Z.of_nat k) = Some e
    end /\
    forall i, (j <= i < k)%nat -> stream (map Z.of_nat (seq 0 i)) (Z.of_nat i) = None.
Proof.
  induction n as [|n IH]; intros j.
  - exists j. simpl. repeat split; intros; lia.
  - simpl. destruct (stream (map Z.of_nat (seq 0 j)) (Z.of_nat j)) as [e|] eqn:Hs.
    + exists j. simpl. repeat split; intros; solve [lia | assumption].
    + destruct (IH (S j)) as (k & Hk & Hfst & Hsnd & Hacc).
      replace (Z.of_nat j + 1) with (Z.of_nat (S j)) by lia.
      replace (map Z.of_nat (seq 0 j) ++ [Z.of_nat j]) with (map Z.of_nat (seq 0 (S j)))
        by (rewrite seq_S, map_app; reflexivity).
      exists k. split; [lia|]. split; [exact Hfst|]. split.
      * destruct (snd _); [|lia]. destruct Hsnd. split; [lia | assumption].
      * intros i Hi. destruct (Nat.eq_dec i j) as [->|Hne]; [exact Hs|].
        apply Hacc. lia.
Qed.

(** X25: [Server.Stream] sends the values 0, 1, ... in order, each once.
    It returns nil after the tenth, when every send was accepted; when a
    send fails it returns the error of that send, having sent the values
    before it and nothing after. *)
Theorem Stream_sends_in_order (stream : SendStream) :
  exists k,
    (k <= 10)%nat /\
    fst (Stream stream) = map Z.of_nat (seq 0 k) /\
    match snd (Stream stream) with
    | None => k = 10%nat
    | Some e => (k < 10)%nat /\ stream (map Z.of_nat (seq 0 k)) (Z.of_nat k) = Some e
    end /\
    forall i, (i < k)%nat -> stream (map Z.of_nat (seq 0 i)) (Z.of_nat i) = None.
Proof.
  destruct (streamLoop_spec stream 10 0) as (k & Hk & Hfst & Hsnd & Hacc).
  exists k. unfold Stream. change 0 with (Z.of_nat 0). change [] with (map Z.of_nat (seq 0 0)).
  split; [lia|]. split; [exact Hfst|]. split.
  - destruct (snd _); [|lia]. destruct Hsnd. split; [lia | assumption].
  - intros i Hi. apply Hacc. lia.
Qed.
